(** * Avatar synthesis pipeline: a shallow embedding of
      [services/ml/image_utils.py], [services/ml/avatar_utils.py] and the
      path derivations of [services/ml/workerrun.py].

    Part I embeds the Python code, one module per concern.  Part II states
    and proves the properties of the specification (claims C1..C10), and
    then further properties of the same code, of the silhouette functions
    and of the worker's tasks (X3..X21).

    Conventions of the embedding.
    - A Python call that may raise returns a [result]; [try/except Exception]
      is a [match] on it.
    - [str] is [string]; [str.replace], [os.path.basename],
      [os.path.dirname], [os.path.splitext] follow CPython and [posixpath].
    - PIL images are objects on a heap ([list image] addressed by position),
      because [fit_smplx_to_landmarks] keeps an [ImageDraw] handle to one
      image object while rebinding the variable [texture_img] to others.
    - The file system is a [gmap string file].
    - External libraries whose pixel-exact or byte-exact output is not part
      of this repository (PIL resampling, alpha blending and ellipse
      rasterisation, trimesh's OBJ serialiser) are the fields of the class
      [Externals]; every theorem holds for all of its instances.
    - Floating point: the measurement code is written once over an
      arithmetic interface [FloatOps]; the general statements hold for
      every instance, the numeric ones are evaluated in IEEE binary64, and
      the reals are the exact arithmetic that binary64 rounds.  The UV code
      works on rationals and keeps IEEE's special results of a division by
      zero ([NaN], [PInf], [NInf]). *)

From Stdlib Require Import ZArith QArith Reals Lra Lia.
From Stdlib Require Import Ascii String.
From Stdlib Require Floats Uint63.
From stdpp Require Import gmap strings list.

Local Open Scope Z_scope.

(* ================================================================== *)
(** * Part I: the embedding *)
(* ================================================================== *)

(** ** Python results *)

Module Py.

Inductive exn : Type :=
| IndexError
| ValueError
| OverflowError
| AttributeError
| OSError.

Inductive result (A : Type) : Type :=
| Ok (a : A)
| Raise (e : exn).
Arguments Ok {A} a.
Arguments Raise {A} e.

Definition bind {A B : Type} (r : result A) (k : A -> result B) : result B :=
  match r with
  | Ok a => k a
  | Raise e => Raise e
  end.

Definition is_ok {A : Type} (r : result A) : bool :=
  match r with Ok _ => true | Raise _ => false end.

(** [seq[i]] for a constant non-negative index. *)
Definition getitem {A : Type} (l : list A) (i : nat) : result A :=
  match l !! i with
  | Some a => Ok a
  | None => Raise IndexError
  end.

End Py.

Import Py.

Declare Scope py_scope.
Delimit Scope py_scope with py.
Notation "x <- c1 ;; c2" := (Py.bind c1 (fun x => c2))
  (at level 100, c1 at next level, right associativity) : py_scope.

(** ** Python strings and [posixpath] *)

Module Str.

(** Characters of [s] from position [n] on: [s[n:]]. *)
Fixpoint drop (n : nat) (s : string) : string :=
  match n, s with
  | O, _ => s
  | S k, EmptyString => EmptyString
  | S k, String _ r => drop k r
  end.

(** The first [n] characters: [s[:n]]. *)
Fixpoint take (n : nat) (s : string) : string :=
  match n, s with
  | O, _ => EmptyString
  | S k, EmptyString => EmptyString
  | S k, String c r => String c (take k r)
  end.

(** [str.replace(old, new)] for a non-empty [old]: occurrences are found
    left to right and do not overlap.  [skip] counts the characters of a
    matched occurrence still to be passed over. *)
Fixpoint replace_from (old new : string) (skip : nat) (s : string) : string :=
  match s with
  | EmptyString => EmptyString
  | String c r =>
      match skip with
      | S k => replace_from old new k r
      | O =>
          if String.prefix old s
          then new +:+ replace_from old new (String.length old - 1) r
          else String c (replace_from old new O r)
      end
  end.

(** With an empty [old], CPython inserts [new] before every character and
    at the end. *)
Fixpoint interleave (new s : string) : string :=
  match s with
  | EmptyString => new
  | String c r => new +:+ String c (interleave new r)
  end.

Definition replace (old new s : string) : string :=
  match old with
  | EmptyString => interleave new s
  | _ => replace_from old new O s
  end.

(** Number of non-overlapping occurrences: [s.count(sub)], [sub] non-empty. *)
Fixpoint count_from (sub : string) (skip : nat) (s : string) : nat :=
  match s with
  | EmptyString => O
  | String c r =>
      match skip with
      | S k => count_from sub k r
      | O =>
          if String.prefix sub s
          then S (count_from sub (String.length sub - 1) r)
          else count_from sub O r
      end
  end.

Definition count (sub s : string) : nat := count_from sub O s.

(** [s.rfind(c)]: the last position of the character, [-1] when absent. *)
Fixpoint rfind_from (c : ascii) (s : string) (i last : Z) : Z :=
  match s with
  | EmptyString => last
  | String a r => rfind_from c r (i + 1) (if Ascii.eqb a c then i else last)
  end.

Definition rfind (c : ascii) (s : string) : Z := rfind_from c s 0 (-1).

Fixpoint mem (c : ascii) (s : string) : bool :=
  match s with
  | EmptyString => false
  | String a r => Ascii.eqb a c || mem c r
  end.

Definition sep : ascii := "/"%char.
Definition extsep : ascii := "."%char.

(** [posixpath.basename]: [i = p.rfind('/') + 1; return p[i:]]. *)
Definition basename (p : string) : string :=
  drop (Z.to_nat (rfind sep p + 1)) p.

(** [rstrip('/')] of a head that is not all slashes. *)
Fixpoint rstrip_sep (s : string) : string :=
  match s with
  | EmptyString => EmptyString
  | String c r =>
      match rstrip_sep r with
      | EmptyString => if Ascii.eqb c sep then EmptyString else String c EmptyString
      | r' => String c r'
      end
  end.

(** [posixpath.dirname]: the head up to the last slash, trailing slashes
    removed unless the head consists of slashes only. *)
Definition dirname (p : string) : string :=
  let head := take (Z.to_nat (rfind sep p + 1)) p in
  match rstrip_sep head with
  | EmptyString => head
  | h => h
  end.

(** [posixpath.join(a, b)] for two components. *)
Definition join (a b : string) : string :=
  match b with
  | String c _ =>
      if Ascii.eqb c sep then b
      else match a with
           | EmptyString => b
           | _ => if Z.eqb (rfind sep a + 1) (Z.of_nat (String.length a))
                  then a +:+ b else a +:+ String sep b
           end
  | EmptyString =>
      match a with
      | EmptyString => EmptyString
      | _ => if Z.eqb (rfind sep a + 1) (Z.of_nat (String.length a))
             then a else a +:+ String sep EmptyString
      end
  end.

(** [genericpath._splitext]: the extension starts at the last dot of the
    last component, unless that component has only leading dots before it. *)
Fixpoint all_dots (s : string) : bool :=
  match s with
  | EmptyString => true
  | String c r => Ascii.eqb c extsep && all_dots r
  end.

Definition splitext (p : string) : string * string :=
  let sepIndex := rfind sep p in
  let dotIndex := rfind extsep p in
  if Z.ltb sepIndex dotIndex then
    let filenameIndex := sepIndex + 1 in
    let lead := take (Z.to_nat (dotIndex - filenameIndex)) (drop (Z.to_nat filenameIndex) p) in
    if all_dots lead then (p, EmptyString)
    else (take (Z.to_nat dotIndex) p, drop (Z.to_nat dotIndex) p)
  else (p, EmptyString).

(** [str.lower] on ASCII text. *)
Definition lower_ascii (c : ascii) : ascii :=
  let n := nat_of_ascii c in
  if (65 <=? n)%nat && (n <=? 90)%nat then ascii_of_nat (n + 32) else c.

Fixpoint lower (s : string) : string :=
  match s with
  | EmptyString => EmptyString
  | String c r => String (lower_ascii c) (lower r)
  end.

End Str.

(** ** Floating-point arithmetic as an interface *)

(** The arithmetic the measurement code uses.  [of_int] is the implicit
    conversion of a Python [int] operand.  [fdot] is [numpy.dot] on two
    vectors of two components, the sum of the two products: it is an
    operation of its own, because a BLAS may fuse a product into the sum
    and so round once where [fadd] and [fmul] round twice. *)
Class FloatOps (F : Type) : Type := {
  fadd : F -> F -> F;
  fsub : F -> F -> F;
  fmul : F -> F -> F;
  fdiv : F -> F -> F;
  fsqrt : F -> F;
  fdot : F * F -> F * F -> F;
  of_int : Z -> F
}.

(** Exact real arithmetic: the idealisation that the floating-point
    operations round.  It is not the arithmetic CPython runs; it serves to
    read the formulas, and where no numeric value is asserted. *)
#[export] Instance real_ops : FloatOps R := {
  fadd := Rplus;
  fsub := Rminus;
  fmul := Rmult;
  fdiv := Rdiv;
  fsqrt := R_sqrt.sqrt;
  fdot := fun u v => (fst u * fst v + snd u * snd v)%R;
  of_int := IZR
}.

(** IEEE 754 binary64, the arithmetic of CPython's [float] and of
    [numpy.float64], with the dot product summed without fusing.  A fused
    dot product gives the same value whenever the two products are exact. *)
#[export] Instance binary64_ops : FloatOps PrimFloat.float := {
  fadd := PrimFloat.add;
  fsub := PrimFloat.sub;
  fmul := PrimFloat.mul;
  fdiv := PrimFloat.div;
  fsqrt := PrimFloat.sqrt;
  fdot := fun u v =>
            PrimFloat.add (PrimFloat.mul (fst u) (fst v)) (PrimFloat.mul (snd u) (snd v));
  of_int := fun z => PrimFloat.of_uint63 (Uint63.of_Z z)
}.

(** ** [image_utils.py]: body measurements *)

Module Measure.

Section Estimate.
Context {F : Type} `{FloatOps F}.

(** A pose landmark: the normalised [x] and [y] the code reads. *)
Record landmark : Type := Landmark { lm_x : F; lm_y : F }.

Record measurements : Type := Measurements {
  shoulder_width : F;
  hip_width : F;
  height : F
}.

(** The joint indices of the [idx] dictionary. *)
Definition left_shoulder : nat := 11.
Definition right_shoulder : nat := 12.
Definition left_hip : nat := 23.
Definition right_hip : nat := 24.
Definition left_ankle : nat := 27.
Definition right_ankle : nat := 28.

(** [get_xy(i)]: [lm = landmarks[i]; (lm.x * image_size[0], lm.y * image_size[1])]. *)
Definition get_xy (landmarks : list landmark) (image_size : Z * Z) (i : nat)
  : result (F * F) :=
  (lm <- getitem landmarks i ;;
   Ok (fmul (lm_x lm) (of_int (fst image_size)),
       fmul (lm_y lm) (of_int (snd image_size))))%py.

(** [np.array(a) - np.array(b)] on pairs. *)
Definition array_sub (a b : F * F) : F * F :=
  (fsub (fst a) (fst b), fsub (snd a) (snd b)).

(** [np.linalg.norm] of a vector of two components: [sqrt(v.dot(v))]. *)
Definition linalg_norm (v : F * F) : F := fsqrt (fdot v v).

Definition estimate_body_measurements (landmarks : list landmark) (image_size : Z * Z)
  : result measurements :=
  (l_shoulder <- get_xy landmarks image_size left_shoulder ;;
   r_shoulder <- get_xy landmarks image_size right_shoulder ;;
   let shoulder_width := linalg_norm (array_sub l_shoulder r_shoulder) in
   l_hip <- get_xy landmarks image_size left_hip ;;
   r_hip <- get_xy landmarks image_size right_hip ;;
   let hip_width := linalg_norm (array_sub l_hip r_hip) in
   let mid_shoulder :=
     (fdiv (fadd (fst l_shoulder) (fst r_shoulder)) (of_int 2),
      fdiv (fadd (snd l_shoulder) (snd r_shoulder)) (of_int 2)) in
   la0 <- get_xy landmarks image_size left_ankle ;;
   ra0 <- get_xy landmarks image_size right_ankle ;;
   la1 <- get_xy landmarks image_size left_ankle ;;
   ra1 <- get_xy landmarks image_size right_ankle ;;
   let mid_ankle :=
     (fdiv (fadd (fst la0) (fst ra0)) (of_int 2),
      fdiv (fadd (snd la1) (snd ra1)) (of_int 2)) in
   let height := linalg_norm (array_sub mid_shoulder mid_ankle) in
   Ok (Measurements shoulder_width hip_width height))%py.

(** The specification's wording, in the arithmetic of the code: the
    pixel-space point [(x * width, y * height)] of a landmark, the midpoint
    of two points, and the Euclidean distance of two points. *)
Definition pixel_space (image_size : Z * Z) (lm : landmark) : F * F :=
  (fmul (lm_x lm) (of_int (fst image_size)), fmul (lm_y lm) (of_int (snd image_size))).

Definition halfway (p q : F * F) : F * F :=
  (fdiv (fadd (fst p) (fst q)) (of_int 2), fdiv (fadd (snd p) (snd q)) (of_int 2)).

Definition distance (p q : F * F) : F :=
  fsqrt (fdot (fsub (fst p) (fst q), fsub (snd p) (snd q))
              (fsub (fst p) (fst q), fsub (snd p) (snd q))).

End Estimate.
Arguments landmark F : clear implicits.
Arguments measurements F : clear implicits.

(** The same three notions written out over the reals. *)
Definition pixel_point (image_size : Z * Z) (lm : landmark R) : R * R :=
  (lm_x lm * IZR (fst image_size), lm_y lm * IZR (snd image_size))%R.

Definition midpoint (p q : R * R) : R * R :=
  ((fst p + fst q) / 2, (snd p + snd q) / 2)%R.

Definition euclidean_distance (p q : R * R) : R :=
  sqrt ((fst p - fst q) ^ 2 + (snd p - snd q) ^ 2)%R.

(** The landmark at a joint index of a sequence (the origin when the
    sequence is too short). *)
Definition joint (lms : list (landmark R)) (i : nat) : landmark R :=
  nth i lms (Landmark 0%R 0%R).

(** A decimal constant such as 0.45, as the quotient 45/100. *)
Definition ratio (n d : Z) : R := (IZR n / IZR d)%R.

(** The synthetic pose of the end-to-end scenario: 33 landmarks, shoulders
    at (0.4,0.3)/(0.6,0.3), ankles at (0.45,0.9)/(0.55,0.9), every other
    joint at [other]. *)
Definition scenario_pose {F : Type} (mk : Z -> Z -> F) (other : landmark F)
  : list (landmark F) :=
  replicate 11 other
  ++ [Landmark (mk 4 10) (mk 3 10); Landmark (mk 6 10) (mk 3 10)]
  ++ replicate 14 other
  ++ [Landmark (mk 45 100) (mk 9 10); Landmark (mk 55 100) (mk 9 10)]
  ++ replicate 4 other.

End Measure.

(** ** PIL images *)

Module Pil.

(** A pixel: red, green, blue, alpha.  An [RGB] image keeps alpha 255. *)
Definition rgba : Type := Z * Z * Z * Z.

Inductive mode : Type := RGB | RGBA.

(** An image object: its mode, its size and its pixel at column [x], row [y]. *)
Record image : Type := Image {
  im_mode : mode;
  im_width : Z;
  im_height : Z;
  pixel : Z -> Z -> rgba
}.

Definition opaque (c : Z * Z * Z) : rgba :=
  let '(r, g, b) := c in (r, g, b, 255).

Definition rgb_of (p : rgba) : Z * Z * Z :=
  let '(r, g, b, _) := p in (r, g, b).

(** [Image.new(mode, (w, h), color)]. *)
Definition new (m : mode) (w h : Z) (color : rgba) : image :=
  Image m w h (fun _ _ => color).

(** [im.convert(mode)]: a new image; going to [RGB] drops the alpha channel. *)
Definition convert (m : mode) (im : image) : image :=
  match m with
  | RGBA => Image RGBA (im_width im) (im_height im) (pixel im)
  | RGB => Image RGB (im_width im) (im_height im)
             (fun x y => opaque (rgb_of (pixel im x y)))
  end.

Definition inside (im : image) (x y : Z) : bool :=
  (0 <=? x) && (x <? im_width im) && (0 <=? y) && (y <? im_height im).

(** [dst.paste(src, (left, top))] without a mask: the region of [src] is
    overwritten. *)
Definition paste (dst src : image) (left top : Z) : image :=
  Image (im_mode dst) (im_width dst) (im_height dst)
    (fun x y =>
       if inside src (x - left) (y - top)
       then (match im_mode dst with
             | RGB => opaque (rgb_of (pixel src (x - left) (y - top)))
             | RGBA => pixel src (x - left) (y - top)
             end)
       else pixel dst x y).

(** The pixel PIL fills in where a crop box leaves the picture: zeros. *)
Definition zero_pixel (m : mode) : rgba :=
  match m with
  | RGB => (0, 0, 0, 255)
  | RGBA => (0, 0, 0, 0)
  end.

(** [im.crop((x1, y1, x2, y2))]: PIL raises [ValueError] when the right
    edge is less than the left one or the lower edge less than the upper
    one, and fills the part of the box outside the picture with zeros. *)
Definition crop (im : image) (box : Z * Z * Z * Z) : result image :=
  let '(x1, y1, x2, y2) := box in
  if (x2 <? x1) || (y2 <? y1) then Raise ValueError
  else Ok (Image (im_mode im) (x2 - x1) (y2 - y1)
             (fun x y => if inside im (x + x1) (y + y1)
                         then pixel im (x + x1) (y + y1)
                         else zero_pixel (im_mode im))).

#[export] Instance image_inhabited : Inhabited image :=
  populate (new RGB 0 0 (0, 0, 0, 255)).

End Pil.

(** ** [image_utils.py]: face landmarks and colour sampling *)

Module ImageUtils.

(** [int(q)] of a float: truncation towards zero. *)
Definition py_int (q : Q) : Z := Z.quot (Qnum q) (Zpos (Qden q)).

(** A decoded [cv2] image: [shape = (h, w, 3)], [image[ny, nx]] a triple of
    channel values. *)
Record raster : Type := Raster {
  shape_h : Z;
  shape_w : Z;
  at_ : Z -> Z -> Z * Z * Z
}.

(** MediaPipe's relative bounding box of a detection. *)
Record rel_box : Type := RelBox { xmin : Q; ymin : Q; width : Q; height : Q }.

(** What the perception libraries answer for the image at one path.
    [pil_open] is [Image.open(path).convert('RGB')] (the decoded picture,
    or the exception), [face_mesh] is [results.multi_face_landmarks] (one list of
    normalised points per face, empty when MediaPipe reports none),
    [face_detection] is [results.detections], [cv2_imread] is
    [cv2.imread(path)], which answers [None] instead of raising. *)
Record scene : Type := Scene {
  pil_open : result Pil.image;
  face_mesh : result (list (list (Q * Q)));
  face_detection : result (list rel_box);
  cv2_imread : option raster
}.

Definition box_corners (size : Z * Z) (box : rel_box) : Z * Z * Z * Z :=
  let w := inject_Z (fst size) in
  let h := inject_Z (snd size) in
  (py_int (xmin box * w), py_int (ymin box * h),
   py_int ((xmin box + width box) * w), py_int ((ymin box + height box) * h)).

(** [extract_face_landmarks]: dense face mesh first, then the four corners
    of the first detected box; any exception is caught and gives [None]. *)
Definition extract_face_landmarks (s : scene) : option (list (Z * Z)) :=
  match pil_open s with
  | Raise _ => None
  | Ok image =>
      let size := (Pil.im_width image, Pil.im_height image) in
      match face_mesh s with
      | Raise _ => None
      | Ok (face :: _) =>
          Some (map (fun lm : Q * Q =>
                       (py_int (fst lm * inject_Z (fst size)),
                        py_int (snd lm * inject_Z (snd size)))) face)
      | Ok [] =>
          match face_detection s with
          | Raise _ => None
          | Ok (box :: _) =>
              let '(x1, y1, x2, y2) := box_corners size box in
              Some [(x1, y1); (x2, y1); (x2, y2); (x1, y2)]
          | Ok [] => None
          end
      end
  end.

(** [detect_faces]: the pixel boxes of all detections; nothing is caught
    here. *)
Definition detect_faces (s : scene) : result (list (Z * Z * Z * Z)) :=
  (image <- pil_open s ;;
   detections <- face_detection s ;;
   Ok (map (box_corners (Pil.im_width image, Pil.im_height image)) detections))%py.

(** [crop_face]: the crop of the first detection, [None] when there is none
    or anything raised. *)
Definition crop_face (s : scene) : option Pil.image :=
  match pil_open s with
  | Raise _ => None
  | Ok image =>
      match face_detection s with
      | Ok (box :: _) =>
          match Pil.crop image
                  (box_corners (Pil.im_width image, Pil.im_height image) box) with
          | Ok face_img => Some face_img
          | Raise _ => None
          end
      | _ => None
      end
  end.

(** [range(-region_size, region_size)]. *)
Definition window (region_size : Z) : list Z :=
  seqZ (- region_size) (2 * region_size).

(** The pixels collected around the sample points, in loop order. *)
Definition sample_colors (image : raster) (region_size : Z) (sample_points : list (Z * Z))
  : list (Z * Z * Z) :=
  p ← sample_points;
  dx ← window region_size;
  dy ← window region_size;
  let nx := fst p + dx in
  let ny := snd p + dy in
  if (0 <=? nx) && (nx <? shape_w image) && (0 <=? ny) && (ny <? shape_h image)
  then [at_ image ny nx] else [].

(** [tuple(int(c) for c in np.mean(colors, axis=0))].  The channel values
    are small non-negative integers, so the truncated float mean is the
    integer quotient of the sum by the count. *)
Definition mean_color (colors : list (Z * Z * Z)) : Z * Z * Z :=
  let n := Z.of_nat (length colors) in
  let sum f := foldr Z.add 0 (map f colors) in
  (Z.quot (sum (fun c => fst (fst c))) n,
   Z.quot (sum (fun c => snd (fst c))) n,
   Z.quot (sum (fun c => snd c)) n).

Definition average (colors : list (Z * Z * Z)) : option (Z * Z * Z) :=
  match colors with
  | [] => None
  | _ => Some (mean_color colors)
  end.

(** [h, w, _ = image.shape] on the answer of [cv2.imread]. *)
Definition image_shape (s : scene) : result raster :=
  match cv2_imread s with
  | Some image => Ok image
  | None => Raise AttributeError
  end.

Definition default_skin_tone : Z * Z * Z := (198, 134, 66).

Definition extract_skin_color (s : scene) : result (option (Z * Z * Z)) :=
  match extract_face_landmarks s with
  | None => Ok (Some default_skin_tone)
  | Some coords =>
      (image <- image_shape s ;;
       left_cheek <- getitem coords 234 ;;
       right_cheek <- getitem coords 454 ;;
       Ok (average (sample_colors image 10 [left_cheek; right_cheek])))%py
  end.

Definition fallback_indices : list nat := [33; 133; 362; 263]%nat.

Definition extract_eye_color (s : scene) : result (option (Z * Z * Z)) :=
  match extract_face_landmarks s with
  | None => Ok None
  | Some coords =>
      (image <- image_shape s ;;
       sample_points <-
         (if Nat.ltb (Nat.max 474 469) (length coords)
          then (left_iris <- getitem coords 474 ;;
                right_iris <- getitem coords 469 ;;
                Ok [left_iris; right_iris])
          else Ok (omap (fun idx => coords !! idx) fallback_indices)) ;;
       Ok (average (sample_colors image 5 sample_points)))%py
  end.

(** The colour sample of one face crop, as [analyze_face] assembles it. *)
Record color_sample : Type := ColorSample {
  skin_color : option (Z * Z * Z);
  eye_color : option (Z * Z * Z)
}.

Definition analyze_face (crop : scene) : result color_sample :=
  (skin <- extract_skin_color crop ;;
   eye <- extract_eye_color crop ;;
   Ok (ColorSample skin eye))%py.

(** *** Names of the debug artifacts *)

(** The chained substitution the code applies to the input path:
    [path.replace('.jpg', s).replace('.jpeg', s).replace('.png', s)]. *)
Definition swap_extension (suffix image_path : string) : string :=
  Str.replace ".png" suffix
    (Str.replace ".jpeg" suffix
       (Str.replace ".jpg" suffix image_path)).

Definition bodymask_path : string -> string := swap_extension "_bodymask.png".
Definition measurements_path : string -> string := swap_extension "_measurements.txt".
Definition facecrop_path : string -> string := swap_extension "_facecrop.png".

(** [extract_body_shape], reduced to what it computes from the pose
    estimator's answer and which files it writes, in order. *)
Definition extract_body_shape {F : Type} `{FloatOps F}
    (pose_landmarks : option (list (Measure.landmark F))) (image_size : Z * Z)
    (image_path : string) (save_intermediate : bool)
  : result (option (list (Measure.landmark F) * Measure.measurements F * (Z * Z)))
    * list string :=
  match pose_landmarks with
  | None => (Ok None, [])
  | Some landmarks =>
      let saved := if save_intermediate then [bodymask_path image_path] else [] in
      match Measure.estimate_body_measurements landmarks image_size with
      | Raise e => (Raise e, saved)
      | Ok m => (Ok (Some (landmarks, m, image_size)),
                 saved ++ [measurements_path image_path])
      end
  end.

End ImageUtils.

(** ** [avatar_utils.py] *)

Module AvatarUtils.

Import Pil.

(** *** Planar UV coordinates *)

(** The value of a numpy float division.  Finite operands are rationals;
    a zero divisor gives IEEE's special values and no exception.  Rounding
    is not modelled, nor the overflow of a difference beyond the largest
    finite number: the statements below that need finite quotients bound
    the range of the column. *)
Inductive npfloat : Type :=
| Fin (q : Q)
| PInf
| NInf
| NaN.

Definition np_divide (a b : Q) : npfloat :=
  if Qeq_bool b 0 then
    if Qeq_bool a 0 then NaN
    else if Qle_bool 0 a then PInf else NInf
  else Fin (a / b)%Q.

Definition vertex : Type := Q * Q * Q.
Definition vx (v : vertex) : Q := fst (fst v).
Definition vy (v : vertex) : Q := snd (fst v).

Definition qmin (a b : Q) : Q := if Qle_bool a b then a else b.
Definition qmax (a b : Q) : Q := if Qle_bool a b then b else a.

(** [column.min()] and [column.max()]; numpy raises [ValueError] on an
    empty array. *)
Definition np_min (xs : list Q) : result Q :=
  match xs with
  | [] => Raise ValueError
  | x :: r => Ok (foldl qmin x r)
  end.

Definition np_max (xs : list Q) : result Q :=
  match xs with
  | [] => Raise ValueError
  | x :: r => Ok (foldl qmax x r)
  end.

(** [(column - column.min()) / (column.max() - column.min())]. *)
Definition normalise_column (xs : list Q) : result (list npfloat) :=
  (lo <- np_min xs ;;
   hi <- np_max xs ;;
   lo' <- np_min xs ;;
   Ok (map (fun x => np_divide (x - lo)%Q (hi - lo')%Q) xs))%py.

(** The two assignments [uv[:, 0] = ...] and [uv[:, 1] = ...], shared by
    [export_uv_template] and [fit_smplx_to_landmarks]. *)
Definition planar_uv (vertices : list vertex) : result (list (npfloat * npfloat)) :=
  (us <- normalise_column (map vx vertices) ;;
   vs <- normalise_column (map vy vertices) ;;
   Ok (zip us vs))%py.

(** The divisor the code uses on a column. *)
Definition uv_divisor (xs : list Q) : result Q :=
  (hi <- np_max xs ;; lo <- np_min xs ;; Ok (hi - lo)%Q)%py.

(** The guard the specification asks for: a zero divisor is taken as 1. *)
Definition guarded_divisor (xs : list Q) : result Q :=
  (d <- uv_divisor xs ;; Ok (if Qeq_bool d 0 then 1%Q else d))%py.

(** *** Meshes *)

(** [mesh.visual] holds one object: colours or a texture. *)
Inductive visual : Type :=
| ColorVisuals (vertex_colors : option (list (list Z)))
| TextureVisuals (uv : list (npfloat * npfloat)) (image : Pil.image).

Record Trimesh : Type := Mesh {
  vertices : list vertex;
  faces : list (nat * nat * nat);
  mesh_visual : visual
}.

(** The per-vertex colours a mesh carries. *)
Definition vertex_colors_of (m : Trimesh) : option (list (list Z)) :=
  match mesh_visual m with
  | ColorVisuals c => c
  | TextureVisuals _ _ => None
  end.

(** The texture and UV coordinates a mesh carries. *)
Definition texture_of (m : Trimesh) : option (list (npfloat * npfloat) * Pil.image) :=
  match mesh_visual m with
  | ColorVisuals _ => None
  | TextureVisuals uv im => Some (uv, im)
  end.

(** [mesh.visual.vertex_colors = colors]: stored in the current visual
    object when it is a [ColorVisuals]. *)
Definition set_vertex_colors (m : Trimesh) (colors : list (list Z)) : Trimesh :=
  match mesh_visual m with
  | ColorVisuals _ => Mesh (vertices m) (faces m) (ColorVisuals (Some colors))
  | TextureVisuals _ _ => m
  end.

(** [mesh.visual = v]: the attribute now holds [v]. *)
Definition set_visual (m : Trimesh) (v : visual) : Trimesh :=
  Mesh (vertices m) (faces m) v.

(** *** External libraries *)

Class Externals : Type := {
  (** [im.resize((w, h))]: the pixel at [(x, y)] of the resized image *)
  resample : Pil.image -> Z -> Z -> Z -> Z -> rgba;
  (** [Image.alpha_composite]: one pixel of the second image over one of the first *)
  blend : rgba -> rgba -> rgba;
  (** [ImageDraw.ellipse(box, fill)]: is the pixel [(x, y)] filled? *)
  ellipse_covers : Z * Z * Z * Z -> Z -> Z -> bool;
  (** trimesh's OBJ text for a mesh *)
  obj_text : Trimesh -> string;
  (** [Image.EXTENSION]: is this lower-cased file extension registered with
      PIL as that of an image format? *)
  save_extension : string -> bool
}.

Section WithExternals.
Context `{E : Externals}.

Definition resize (im : image) (w h : Z) : image :=
  Image (im_mode im) w h (resample im w h).

(** [Image.alpha_composite(im1, im2)]: both must be [RGBA] and of one size. *)
Definition alpha_composite (im1 im2 : image) : result image :=
  match im_mode im1, im_mode im2 with
  | RGBA, RGBA =>
      if (im_width im1 =? im_width im2) && (im_height im1 =? im_height im2)
      then Ok (Image RGBA (im_width im1) (im_height im1)
                 (fun x y => blend (pixel im1 x y) (pixel im2 x y)))
      else Raise ValueError
  | _, _ => Raise ValueError
  end.

(** One [draw.ellipse(box, fill=color)] on an image. *)
Definition draw_ellipse (box : Z * Z * Z * Z) (fill : rgba) (im : image) : image :=
  Image (im_mode im) (im_width im) (im_height im)
    (fun x y => if ellipse_covers box x y then fill else pixel im x y).

(** *** [export_uv_template] *)

(** [int(f)] of a numpy float. *)
Definition np_int (f : npfloat) : result Z :=
  match f with
  | Fin q => Ok (ImageUtils.py_int q)
  | NaN => Raise ValueError
  | PInf | NInf => Raise OverflowError
  end.

Definition np_scale (f : npfloat) (k : Z) : npfloat :=
  match f with
  | Fin q => Fin (q * inject_Z k)%Q
  | other => other
  end.

Definition np_one_minus (f : npfloat) : npfloat :=
  match f with
  | Fin q => Fin (1 - q)%Q
  | PInf => NInf
  | NInf => PInf
  | NaN => NaN
  end.

Fixpoint draw_uv_points (texture_size : Z) (uv : list (npfloat * npfloat)) (img : image)
  : result image :=
  match uv with
  | [] => Ok img
  | (u, v) :: rest =>
      (x <- np_int (np_scale u (texture_size - 1)) ;;
       y <- np_int (np_scale (np_one_minus v) (texture_size - 1)) ;;
       draw_uv_points texture_size rest
         (draw_ellipse (x - 2, y - 2, x + 2, y + 2) (0, 0, 0, 255) img))%py
  end.

(** Lines 9-18 of [export_uv_template]: the picture it draws, or the
    exception raised on the way. *)
Definition uv_template_image (vertices : list vertex) (texture_size : Z) : result image :=
  (uv <- planar_uv vertices ;;
   draw_uv_points texture_size uv
     (new RGBA texture_size texture_size (255, 255, 255, 0)))%py.

(** *** The world of one run *)

(** A file: text, a saved picture, a GLB container with the mesh it was
    exported from, or any other content the run only tests for existence. *)
Inductive file : Type :=
| Text (contents : string)
| Png (picture : image)
| Glb (scene : Trimesh)
| Blob.

(** The I/O steps of [fit_smplx_to_landmarks] that may raise. *)
Inductive io_op : Type :=
| SaveUvTemplate
| SaveTexture
| WriteMtl
| OpenObj
| ExportObj
| ExportGlb.

(** What the surroundings answer during one run: the parametric body
    model for a gender, the perception results and decoded pictures by
    path, the location of the module, and which I/O steps succeed. *)
Record environment : Type := Environment {
  smplx_model : string -> result (list vertex * list (nat * nat * nat));
  photo : string -> ImageUtils.scene;
  open_image : string -> result image;
  module_file : string;
  io_ok : io_op -> bool
}.

(** The exception of a failed [im.save(path)]: PIL looks the format up by
    the lower-cased extension of the path first and raises [ValueError]
    ("unknown file extension") when it is not registered; otherwise the
    failure is that of writing the file, an [OSError].  PIL cannot save to
    a path whose extension it does not know, so for such a path the world
    answers [false] to the save. *)
Definition save_error (path : string) : exn :=
  if save_extension (Str.lower (snd (Str.splitext path))) then OSError else ValueError.

Definition path_exists (fs : gmap string file) (p : string) : bool :=
  match fs !! p with
  | Some _ => true
  | None => false
  end.

(** [if os.path.exists(p): os.remove(p)]. *)
Definition remove_if_exists (p : string) (fs : gmap string file) : gmap string file :=
  if path_exists fs p then delete p fs else fs.

(** *** Texture compositing *)

Definition texture_size : Z := 512.

(** [int(texture_size * n / 100)] for the two-digit decimal factors of the
    code, which are not integers at [texture_size = 512]. *)
Definition fraction (size percent : Z) : Z := size * percent / 100.

(** The forced fill colour of the code. *)
Definition fill_color : Z * Z * Z := (10, 10, 10).

(** The local variables that name image objects: the heap of objects,
    the object [texture_img] is bound to, and the object the [ImageDraw]
    handle [draw] was created on. *)
Record frame : Type := Frame {
  heap : list image;
  texture_img : nat;
  draw : nat
}.

Definition alloc (im : image) (f : frame) : list image * nat :=
  (heap f ++ [im], length (heap f)).

(** Layer 1: [texture_img = Image.new('RGB', ...); draw = ImageDraw.Draw(texture_img)]. *)
Definition base_layer : frame :=
  Frame [new RGB texture_size texture_size (opaque fill_color)] 0 0.

(** Layer 2: the face crop is pasted into the object [texture_img] names. *)
Definition face_layer (env : environment) (fs : gmap string file)
    (image_path : option string) (f : frame) : frame :=
  match image_path with
  | None => f
  | Some path =>
      if path_exists fs path then
        match ImageUtils.detect_faces (photo env path) with
        | Raise _ => f
        | Ok [] => f
        | Ok (_ :: _) =>
            match ImageUtils.crop_face (photo env path),
                  ImageUtils.extract_face_landmarks (photo env path) with
            | Some face_img, Some (_ :: _) =>
                let uv_x := fraction texture_size 50 in
                let uv_y := fraction texture_size 32 in
                let face_img :=
                  resize face_img (fraction texture_size 28) (fraction texture_size 28) in
                let face_x := uv_x - im_width face_img / 2 in
                let face_y := uv_y - im_height face_img / 2 in
                Frame (alter (fun t => paste t face_img face_x face_y) (texture_img f) (heap f))
                      (texture_img f) (draw f)
            | _, _ => f
            end
        end
      else f
  end.

Definition outfit_base (env : environment) (gender : string) : option string :=
  let assets_dir := Str.join (Str.dirname (module_file env)) "fashion_assets" in
  if String.eqb gender "male" then Some (Str.join assets_dir "male_outfit")
  else if String.eqb gender "female" then Some (Str.join assets_dir "female_outfit")
  else None.

Fixpoint first_existing (fs : gmap string file) (base : string) (exts : list string)
  : option string :=
  match exts with
  | [] => None
  | ext :: rest =>
      if path_exists fs (base +:+ ext) then Some (base +:+ ext)
      else first_existing fs base rest
  end.

Definition outfit_path (env : environment) (fs : gmap string file) (gender : string)
  : option string :=
  match outfit_base env gender with
  | None => None
  | Some base => first_existing fs base [".png"; ".jpg"; ".jpeg"]
  end.

(** Layer 3: the garment.  Each of [convert], [alpha_composite] and
    [convert] makes a new object and rebinds [texture_img]; [draw] keeps
    the object it was created on. *)
Definition garment_layer (env : environment) (fs : gmap string file)
    (gender : string) (f : frame) : frame :=
  match outfit_path env fs gender with
  | None => f
  | Some path =>
      match open_image env path with
      | Raise _ => f
      | Ok outfit =>
          let clothing := resize (convert RGBA outfit) texture_size texture_size in
          let '(h1, t1) := alloc (convert RGBA (heap f !!! texture_img f)) f in
          let f1 := Frame h1 t1 (draw f) in
          match alpha_composite (h1 !!! t1) clothing with
          | Raise _ => f1
          | Ok composed =>
              let '(h2, t2) := alloc composed f1 in
              let f2 := Frame h2 t2 (draw f) in
              let '(h3, t3) := alloc (convert RGB (h2 !!! t2)) f2 in
              Frame h3 t3 (draw f)
          end
      end
  end.

Definition eye_box (cx cy r : Z) : Z * Z * Z * Z := (cx - r, cy - r, cx + r, cy + r).

Definition left_eye_uv : Z * Z := (fraction texture_size 43, fraction texture_size 32).
Definition right_eye_uv : Z * Z := (fraction texture_size 57, fraction texture_size 32).
Definition eye_radius : Z := fraction texture_size 3.

(** Layer 4: the two ellipses are drawn through the handle [draw]. *)
Definition eye_layer (eye_color : option (Z * Z * Z)) (f : frame) : frame :=
  match eye_color with
  | None => f
  | Some c =>
      let paint box := draw_ellipse box (opaque c) in
      Frame (alter (fun t =>
                      paint (eye_box (fst right_eye_uv) (snd right_eye_uv) eye_radius)
                        (paint (eye_box (fst left_eye_uv) (snd left_eye_uv) eye_radius) t))
               (draw f) (heap f))
            (texture_img f) (draw f)
  end.

(** Lines 52-115: the four layers in source order. *)
Definition compose_texture (env : environment) (fs : gmap string file)
    (gender : string) (image_path : option string) (eye_color : option (Z * Z * Z))
  : frame :=
  eye_layer eye_color
    (garment_layer env fs gender
       (face_layer env fs image_path base_layer)).

(** The image [texture_img.save] writes. *)
Definition saved_texture (f : frame) : image := heap f !!! texture_img f.

(** *** Mesh assembly (lines 130-142) *)

(** [tuple(list(skin_color) + [255])] for three components, the tuple
    itself otherwise. *)
Definition vertex_color (skin_color : list Z) : list Z :=
  if Nat.eqb (length skin_color) 3 then skin_color ++ [255] else skin_color.

(** [np.tile(vertex_color, (n, 1))]. *)
Definition tile (row : list Z) (n : nat) : list (list Z) := replicate n row.

Definition assemble_mesh (mesh : Trimesh) (vertices : list vertex)
    (texture : image) (skin_color : option (list Z)) : result Trimesh :=
  (uv <- planar_uv vertices ;;
   let mesh :=
     match skin_color with
     | Some c => set_vertex_colors mesh (tile (vertex_color c) (length vertices))
     | None => mesh
     end in
   Ok (set_visual mesh (TextureVisuals uv texture)))%py.

(** *** Export *)

Definition nl : string := String (ascii_of_nat 10) EmptyString.

(** The text written to the material file. *)
Definition mtl_text (texture_name : string) : string :=
  "newmtl skin" +:+ nl +:+
  "Ka 1.0 1.0 1.0" +:+ nl +:+
  "Kd 1.0 1.0 1.0" +:+ nl +:+
  "Ks 0.0 0.0 0.0" +:+ nl +:+
  "d 1.0" +:+ nl +:+
  "illum 2" +:+ nl +:+
  "map_Kd " +:+ texture_name +:+ nl.

(** The two lines written to the mesh file before trimesh's records. *)
Definition obj_header (mtl_name : string) : string :=
  "mtllib " +:+ mtl_name +:+ nl +:+ "usemtl skin" +:+ nl.

Definition user_image_path (out_path : string) : string :=
  Str.replace "_avatar.obj" ".png" out_path.

Definition mtl_path (out_path : string) : string :=
  Str.replace ".obj" ".mtl" out_path.

Definition glb_path (out_path : string) : string :=
  fst (Str.splitext out_path) +:+ ".glb".

(** Lines 47-50: the previous outputs next to [out_path] are removed. *)
Definition purge (out_path : string) (fs : gmap string file) : gmap string file :=
  foldl (fun fs ext =>
           remove_if_exists
             (Str.join (Str.dirname out_path)
                (fst (Str.splitext (Str.basename out_path)) +:+ ext)) fs)
        fs [".obj"; ".mtl"; ".png"].

(** Lines 144-149: [try: open; write header; mesh.export] with the
    exception swallowed.  A failed [open] leaves the file system as it
    was; a failed export leaves the header in the file. *)
Definition write_obj (env : environment) (out_path : string) (mesh : Trimesh)
    (fs : gmap string file) : gmap string file :=
  if io_ok env OpenObj then
    let header := obj_header (Str.basename (mtl_path out_path)) in
    if io_ok env ExportObj
    then <[out_path := Text (header +:+ obj_text mesh)]> fs
    else <[out_path := Text header]> fs
  else fs.

(** Lines 151-160: the GLB export decides the returned path. *)
Definition export_glb (env : environment) (out_path : string) (mesh : Trimesh)
    (fs : gmap string file) : string * gmap string file :=
  if io_ok env ExportGlb
  then (glb_path out_path, <[glb_path out_path := Glb mesh]> fs)
  else (out_path, fs).

(** The files as they are when the OBJ stage starts. *)
Definition before_obj (out_path : string) (texture : image) (fs : gmap string file)
  : gmap string file :=
  <[mtl_path out_path := Text (mtl_text (Str.basename (user_image_path out_path)))]>
    (<[user_image_path out_path := Png texture]>
       (remove_if_exists (user_image_path out_path) fs)).

(** Lines 117-160, from the composed texture on. *)
Definition export_avatar (env : environment) (out_path : string)
    (vertices : list vertex) (mesh : Trimesh) (texture : image)
    (skin_color : option (list Z)) (fs : gmap string file)
  : result string * gmap string file :=
  let fs := remove_if_exists (user_image_path out_path) fs in
  if io_ok env SaveTexture then
    let fs := <[user_image_path out_path := Png texture]> fs in
    if io_ok env WriteMtl then
      let texture_name := Str.basename (user_image_path out_path) in
      let fs := <[mtl_path out_path := Text (mtl_text texture_name)]> fs in
      match assemble_mesh mesh vertices texture skin_color with
      | Raise e => (Raise e, fs)
      | Ok mesh =>
          let fs := write_obj env out_path mesh fs in
          let '(path, fs) := export_glb env out_path mesh fs in
          (Ok path, fs)
      end
    else (Raise OSError, fs)
  else (Raise (save_error (user_image_path out_path)), fs).

(** [export_uv_template(vertices, out_path, texture_size)], lines 1-20: the
    picture is drawn and saved to [out_path]; the function returns [None]. *)
Definition export_uv_template (env : environment) (vertices : list vertex)
    (out_path : string) (texture_size : Z) (fs : gmap string file)
  : result unit * gmap string file :=
  match uv_template_image vertices texture_size with
  | Raise e => (Raise e, fs)
  | Ok img =>
      if io_ok env SaveUvTemplate then (Ok tt, <[out_path := Png img]> fs)
      else (Raise (save_error out_path), fs)
  end.

(** Lines 42-45: [try: export_uv_template(vertices)] with the default path
    and size; whatever is raised is printed and dropped. *)
Definition try_export_uv_template (env : environment) (vertices : list vertex)
    (fs : gmap string file) : gmap string file :=
  snd (export_uv_template env vertices "uv_template.png" 512 fs).

(** The state in which [fit_smplx_to_landmarks] composes the texture. *)
Definition staged (env : environment) (out_path : string) (vs : list vertex)
    (fs : gmap string file) : gmap string file :=
  purge out_path (try_export_uv_template env vs fs).

(** The function itself.  Its parameters [landmarks], [model_path] and
    [clothes_option] are not read after the body model is built and are
    left to [smplx_model]. *)
Definition fit_smplx_to_landmarks (env : environment) (gender out_path : string)
    (image_path : option string) (skin_color : option (list Z))
    (eye_color : option (Z * Z * Z)) (fs : gmap string file)
  : result string * gmap string file :=
  match smplx_model env gender with
  | Raise e => (Raise e, fs)
  | Ok (vertices, faces) =>
      let mesh := Mesh vertices faces (ColorVisuals None) in
      let fs := try_export_uv_template env vertices fs in
      let fs := purge out_path fs in
      let f := compose_texture env fs gender image_path eye_color in
      export_avatar env out_path vertices mesh (saved_texture f) skin_color fs
  end.

End WithExternals.

(** A reference instance of the external libraries, for running the model:
    nearest-neighbour resampling, the integer source-over blending of
    Pillow's [AlphaComposite.c], a filled disc inscribed in the box, a
    one-line OBJ body, and some of the extensions PIL registers. *)

(** Pillow's [SHIFTFORDIV255]: the division by 255 of a rounded sum. *)
Definition shift_for_div255 (a : Z) : Z := Z.shiftr (Z.shiftr a 8 + a) 8.

Definition reference_blend (dst src : rgba) : rgba :=
  let '(dr, dg, db, da) := dst in
  let '(sr, sg, sb, sa) := src in
  if sa =? 0 then dst
  else
    let outa255 := sa * 255 + da * (255 - sa) in
    let coef1 := sa * 255 * 255 * 128 / outa255 in
    let coef2 := 255 * 128 - coef1 in
    let mix s d := Z.shiftr (shift_for_div255 (s * coef1 + d * coef2 + 128 * 128)) 7 in
    (mix sr dr, mix sg dg, mix sb db, shift_for_div255 (outa255 + 128)).

Definition reference_disc (box : Z * Z * Z * Z) (x y : Z) : bool :=
  let '(x0, y0, x1, y1) := box in
  let dx := 2 * x - (x0 + x1) in
  let dy := 2 * y - (y0 + y1) in
  dx * dx * ((y1 - y0) * (y1 - y0)) + dy * dy * ((x1 - x0) * (x1 - x0))
  <=? (x1 - x0) * (x1 - x0) * ((y1 - y0) * (y1 - y0)).

Definition reference_externals : Externals := {|
  resample := fun im w h x y => pixel im (x * im_width im / w) (y * im_height im / h);
  blend := reference_blend;
  ellipse_covers := reference_disc;
  obj_text := fun m => "# " +:+ nl;
  save_extension := fun ext =>
    bool_decide (ext ∈ [".png"; ".jpg"; ".jpeg"; ".bmp"; ".gif"; ".tif"; ".tiff"; ".webp"])
|}.

End AvatarUtils.

(** ** Concrete inputs *)

Module Fixtures.

Import Pil ImageUtils AvatarUtils.

(** A readable picture in which neither the face mesh nor the face
    detector finds anything. *)
Definition faceless_scene : scene :=
  Scene (Ok (Pil.new RGB 640 480 (0, 0, 0, 255))) (Ok []) (Ok [])
        (Some (Raster 480 640 (fun _ _ => (0, 0, 0)))).

(** The flat mesh used below: two vertices with the same [x]. *)
Definition flat_mesh : list vertex := [(1, 0, 0)%Q; (1, 1, 0)%Q].

(** A triangle, as the body model's answer. *)
Definition triangle : list vertex := [(0, 0, 0)%Q; (1, 0, 0)%Q; (0, 2, 0)%Q].

(** A world in which the module lives in [/srv/ml], every picture is
    faceless, every asset decodes to a translucent red picture, and the
    I/O steps succeed as [ok] says. *)
Definition world (ok : io_op -> bool) : environment :=
  Environment (fun _ => Ok (triangle, [(0, 1, 2)%nat]))
              (fun _ => faceless_scene)
              (fun _ => Ok (Pil.new RGBA 64 64 (200, 0, 0, 128)))
              "/srv/ml/avatar_utils.py" ok.

Definition all_ok (op : io_op) : bool := true.

(** A uniform picture on which the face mesh finds 478 points and the
    face detector one box. *)
Definition portrait : scene :=
  Scene (Ok (Pil.new RGB 640 480 (90, 120, 200, 255)))
        (Ok [replicate 478 (1 # 2, 1 # 2)])
        (Ok [RelBox (1 # 4) (1 # 4) (1 # 2) (1 # 2)])
        (Some (Raster 480 640 (fun _ _ => (200, 120, 90)))).

(** The same world with [portrait] as every picture. *)
Definition studio : environment :=
  Environment (fun _ => Ok (triangle, [(0, 1, 2)%nat]))
              (fun _ => portrait)
              (fun _ => Ok (Pil.new RGBA 64 64 (200, 0, 0, 128)))
              "/srv/ml/avatar_utils.py" all_ok.

(** A file system that holds the photograph and the male garment asset. *)
Definition with_photo_and_outfit : gmap string file :=
  {[ "/data/photo.jpg" := Blob;
     "/srv/ml/fashion_assets/male_outfit.png" := Blob ]}.

(** The mesh file cannot be opened and the GLB export fails. *)
Definition obj_and_glb_fail (op : io_op) : bool :=
  match op with
  | OpenObj | ExportObj | ExportGlb => false
  | _ => true
  end.

(** A file system that holds the male garment asset. *)
Definition with_male_outfit : gmap string file :=
  {[ "/srv/ml/fashion_assets/male_outfit.png" := Blob ]}.

End Fixtures.

Import Fixtures.

(** ** [avatar_utils.py]: the silhouette *)

Module Silhouette.

Import Pil AvatarUtils.

(** The body mask: a single-channel ('L') picture. *)
Record mask : Type := Mask {
  mask_width : Z;
  mask_height : Z;
  grey : Z -> Z -> Z
}.

(** PIL operations of the silhouette code whose pixel-exact result is not
    part of this repository. *)
Class Brushes : Type := {
  (** [im.paste(mask, (0, 0), mask)] on one pixel: destination pixel and grey value *)
  paste_masked : rgba -> Z -> rgba;
  (** [draw.text((10, 10), "Body Shape & Structure", font=font)]: is the
      pixel inked?  The flag says whether [arial.ttf] could be loaded. *)
  text_covers : bool -> Z -> Z -> bool
}.

(** The image objects of one call, the object the variable [avatar] names
    and the object [draw] was created on. *)
Record canvas : Type := Canvas {
  objects : list image;
  avatar : nat;
  pen : nat
}.

(** The image [avatar.save(out_path)] writes. *)
Definition saved (c : canvas) : image := objects c !!! avatar c.

(** [(int(lm.x * width), int(lm.y * height))]. *)
Definition centre (m : mask) (lm : Q * Q) : Z * Z :=
  (ImageUtils.py_int (fst lm * inject_Z (mask_width m)),
   ImageUtils.py_int (snd lm * inject_Z (mask_height m))).

(** [(x-r, y-r, x+r, y+r)]. *)
Definition dot (r : Z) (c : Z * Z) : Z * Z * Z * Z :=
  (fst c - r, snd c - r, fst c + r, snd c + r).

Definition highlight_indices : list nat := [11; 12; 23; 24; 25; 26; 27; 28]%nat.

Section WithBrushes.
Context `{E : Externals} `{B : Brushes}.

(** A loop of [draw.ellipse] calls, in order. *)
Definition draw_dots (r : Z) (fill : rgba) (centres : list (Z * Z)) (im : image) : image :=
  foldl (fun im c => draw_ellipse (dot r c) fill im) im centres.

(** [Image.new('RGBA', mask_img.size, (255,255,255,0))] followed by
    [avatar.paste(mask_img, (0,0), mask_img)]. *)
Definition pasted_mask (m : mask) : image :=
  Image RGBA (mask_width m) (mask_height m)
    (fun x y =>
       if (0 <=? x) && (x <? mask_width m) && (0 <=? y) && (y <? mask_height m)
       then paste_masked (255, 255, 255, 0) (grey m x y)
       else (255, 255, 255, 0)).

(** The grey values [img_np[img_np[:,:,0] > 0]] selects, row by row. *)
Definition lit_pixels (m : mask) : list Z :=
  y ← seqZ 0 (mask_height m);
  x ← seqZ 0 (mask_width m);
  if 0 <? grey m x y then [grey m x y] else [].

(** [avg_color]: the truncated mean of the lit pixels on each channel of
    the grey picture, or the default when none is lit. *)
Definition avg_color (m : mask) : Z * Z * Z :=
  match lit_pixels m with
  | [] => (200, 180, 160)
  | lit =>
      let mean := Z.quot (foldr Z.add 0 lit) (Z.of_nat (length lit)) in
      (mean, mean, mean)
  end.

(** The landmark loops and the caption of [avatar_utils.py], on one image. *)
Definition annotate (font_found : bool) (landmarks : list (Q * Q)) (m : mask)
    (im : image) : image :=
  let highlighted :=
    draw_dots 8 (255, 0, 0, 128)
      (omap (fun i => centre m <$> landmarks !! i) highlight_indices) im in
  let dotted := draw_dots 3 (0, 255, 0, 128) (map (centre m) landmarks) highlighted in
  Image (im_mode dotted) (im_width dotted) (im_height dotted)
    (fun x y => if text_covers font_found x y then (0, 0, 0, 255) else pixel dotted x y).

(** [generate_avatar_silhouette] of [avatar_utils.py], lines 162-188: the
    composite rebinds [avatar]; the loops and the caption go through [draw]. *)
Definition generate_avatar_silhouette (font_found : bool) (landmarks : list (Q * Q))
    (m : mask) : result canvas :=
  let first := pasted_mask m in
  let '(r, g, b) := avg_color m in
  let overlay := new RGBA (mask_width m) (mask_height m) (r, g, b, 80) in
  (composed <- alpha_composite first overlay ;;
   Ok (Canvas [annotate font_found landmarks m first; overlay; composed] 2 0))%py.

End WithBrushes.

End Silhouette.


(** ** [workerrun.py]: the two tasks *)

Module WorkerRun.

Import Pil AvatarUtils Silhouette.

(** How a task ends: a returned value, an exception of the libraries, or
    the [KeyError] of a dictionary subscript. *)
Inductive outcome (A : Type) : Type :=
| Returned (a : A)
| Raised (e : exn)
| RaisedKeyError (key : string).
Arguments Returned {A} a.
Arguments Raised {A} e.
Arguments RaisedKeyError {A} key.

(** [gender.lower().startswith('m')]. *)
Definition starts_with_m (gender : string) : bool :=
  match gender with
  | String c _ => Ascii.eqb c "m" || Ascii.eqb c "M"
  | EmptyString => false
  end.

(** [detect_gender]: DeepFace's label, or ['neutral'] when anything raised. *)
Definition detect_gender (deepface : result string) : string :=
  match deepface with
  | Ok gender => if starts_with_m gender then "male" else "female"
  | Raise _ => "neutral"
  end.

(** [extract_face_landmarks] of this file: the face mesh only. *)
Definition extract_face_landmarks (s : ImageUtils.scene) : option (list (Z * Z)) :=
  match ImageUtils.pil_open s with
  | Raise _ => None
  | Ok image =>
      match ImageUtils.face_mesh s with
      | Ok (face :: _) =>
          Some (map (fun lm : Q * Q =>
                       (ImageUtils.py_int (fst lm * inject_Z (im_width image)),
                        ImageUtils.py_int (snd lm * inject_Z (im_height image)))) face)
      | _ => None
      end
  end.

(** The output paths the tasks derive from the input path. *)
Definition avatar_png_path : string -> string :=
  ImageUtils.swap_extension "_avatar.png".

Definition avatar_obj_path (detected_gender : string) : string -> string :=
  ImageUtils.swap_extension ("_" +:+ detected_gender +:+ "_avatar.obj").

(** The dictionaries the tasks return. *)
Inductive reply (M : Type) : Type :=
| NoPerson                                   (* {"error": "No person detected"} *)
| Avatar2d (avatar_path : string)            (* {"avatar_path": ...} *)
| Avatar3d (avatar_obj gender : string) (measurements : M).
Arguments NoPerson {M}.
Arguments Avatar2d {M} avatar_path.
Arguments Avatar3d {M} avatar_obj gender measurements.

Section Tasks.
Context {F : Type} `{FloatOps F} `{E : Externals} `{B : Brushes}.

(** What the surroundings answer for one photograph: DeepFace's gender
    label, the pose estimator's landmarks with the picture's size, the
    face perception, the body model by model path and gender, and whether
    trimesh can write the mesh. *)
Record shot : Type := Shot {
  deepface : result string;
  pose_landmarks : option (list (Measure.landmark F));
  image_size : Z * Z;
  face : ImageUtils.scene;
  body_model : string -> string -> result (list vertex * list (nat * nat * nat));
  mesh_export_ok : bool
}.

(** [generate_avatar_silhouette] of this file, lines 169-181: no overlay,
    no highlights, no caption; [avatar] and [draw] stay on one object. *)
Definition generate_avatar_silhouette (landmarks : list (Q * Q)) (m : mask) : canvas :=
  Canvas [draw_dots 3 (0, 255, 0, 128) (map (centre m) landmarks) (pasted_mask m)] 0 0.

(** [fit_smplx_to_landmarks] of this file, lines 144-167: the mesh is
    exported by trimesh alone.  The answer is the path and the text
    written there. *)
Definition fit_smplx_to_landmarks (s : shot) (model_path gender out_path : string)
  : result (string * string) :=
  (model <- body_model s model_path gender ;;
   let mesh := Mesh (fst model) (snd model) (ColorVisuals None) in
   if mesh_export_ok s then Ok (out_path, obj_text mesh) else Raise OSError)%py.

(** [process_user_image], lines 184-196, with the paths of the files
    written, in order. *)
Definition process_user_image (s : shot) (image_path : string)
  : outcome (reply (Measure.measurements F)) * list string :=
  match ImageUtils.extract_body_shape (pose_landmarks s) (image_size s) image_path true with
  | (Raise e, written) => (Raised e, written)
  | (Ok None, written) => (Returned NoPerson, written)
  | (Ok (Some _), written) =>
      let out_path := avatar_png_path image_path in
      (Returned (Avatar2d out_path), written ++ [out_path])
  end.

(** [process_user_image_3d_auto_gender], lines 200-231.  The default of
    [model_paths.get] is evaluated first, so a dictionary without the key
    ['neutral'] raises. *)
Definition process_user_image_3d_auto_gender (s : shot) (image_path : string)
    (model_paths : gmap string string)
  : outcome (reply (Measure.measurements F)) * list string :=
  let detected_gender := detect_gender (deepface s) in
  match model_paths !! "neutral" with
  | None => (RaisedKeyError "neutral", [])
  | Some neutral_path =>
      let model_path := default neutral_path (model_paths !! detected_gender) in
      match ImageUtils.extract_body_shape (pose_landmarks s) (image_size s)
              image_path true with
      | (Raise e, written) => (Raised e, written)
      | (Ok None, written) => (Returned NoPerson, written)
      | (Ok (Some (_, measurements, _)), written) =>
          let face_img := ImageUtils.crop_face (face s) in
          let out_path := avatar_obj_path detected_gender image_path in
          match fit_smplx_to_landmarks s model_path detected_gender out_path with
          | Raise e => (Raised e, written)
          | Ok (obj_path, _) =>
              let written := written ++ [obj_path] in
              let written :=
                match face_img with
                | Some _ => written ++ [ImageUtils.facecrop_path image_path]
                | None => written
                end in
              (Returned (Avatar3d obj_path detected_gender measurements), written)
          end
      end
  end.

End Tasks.
Arguments shot F : clear implicits.

End WorkerRun.

(** ** [tasks.py] *)

Module Tasks.

(** [generate_avatar_task]: [os.path.basename(result.get('obj_path') or '')]
    on the dictionary the worker returned; a value may be [None]. *)
Definition generate_avatar_task (result : gmap string (option string)) : string :=
  Str.basename (default EmptyString (default None (result !! "obj_path"))).

End Tasks.

(** ** Notions the further properties use *)

Module Notions.

Import Pil ImageUtils AvatarUtils.

(** The three channels of a colour lie between 0 and [hi]. *)
Definition channels_within (hi : Z) (c : Z * Z * Z) : Prop :=
  (0 <= fst (fst c) <= hi) /\ (0 <= snd (fst c) <= hi) /\ (0 <= snd c <= hi).

(** Every pixel inside the bounds of a [cv2] image is such a colour. *)
Definition raster_within (hi : Z) (image : raster) : Prop :=
  forall nx ny, 0 <= nx < shape_w image -> 0 <= ny < shape_h image ->
    channels_within hi (at_ image ny nx).

(** The alpha channel of a pixel. *)
Definition alpha (p : rgba) : Z := snd p.

(** A finished texture: RGB, 512 x 512, opaque everywhere. *)
Definition finished (t : image) : Prop :=
  im_mode t = RGB /\ im_width t = texture_size /\ im_height t = texture_size
  /\ forall x y, alpha (pixel t x y) = 255.

(** The three stale outputs [purge] looks for. *)
Definition purge_targets (out_path : string) : list string :=
  map (fun ext => Str.join (Str.dirname out_path)
                    (fst (Str.splitext (Str.basename out_path)) +:+ ext))
      [".obj"; ".mtl"; ".png"].

(** The largest finite binary32 number, (2^24 - 1) * 2^104.  The body
    model's vertices are float32 or float64 numbers: a range up to this
    bound overflows in neither format. *)
Definition float32_max : Q := inject_Z ((2 ^ 24 - 1) * 2 ^ 104).

(** A UV coordinate that is a number of the unit interval. *)
Definition in_unit_interval (f : npfloat) : Prop :=
  match f with
  | Fin q => (0 <= q /\ q <= 1)%Q
  | _ => False
  end.

End Notions.

(** ** Further concrete inputs *)

Module Samples.

Import Pil ImageUtils AvatarUtils Silhouette WorkerRun.

(** A picture on which only the face detector answers, with one box. *)
Definition boxed_face : scene :=
  Scene (Ok (Pil.new RGB 640 480 (0, 0, 0, 255))) (Ok [])
        (Ok [RelBox (1 # 4) (1 # 4) (1 # 2) (1 # 2)])
        (Some (Raster 480 640 (fun _ _ => (90, 120, 200)))).


(** Masked paste and caption for running the silhouette code: the grey
    value replaces the pixel where the mask is lit; a caption of one line
    18 pixels high. *)
Definition reference_brushes : Brushes := {|
  paste_masked := fun dst v => if 0 <? v then (v, v, v, 255) else dst;
  text_covers := fun _ x y => (10 <=? x) && (x <? 200) && (10 <=? y) && (y <? 28)
|}.

(** A mask of 100 x 100 pixels, lit on its left half. *)
Definition half_mask : mask :=
  Mask 100 100 (fun x _ => if x <? 50 then 255 else 0).

(** A photograph with a pose of 33 landmarks and a face, a body model
    that answers a triangle, and a working mesh export. *)
Definition session : shot R :=
  Shot (Ok "Woman")
       (Some (Measure.scenario_pose Measure.ratio (Measure.Landmark 0%R 0%R)))
       (1000, 1000) Fixtures.portrait
       (fun _ _ => Ok (Fixtures.triangle, [(0, 1, 2)%nat])) true.

End Samples.

Import Notions Samples.

(* ================================================================== *)
(** * Part II: properties *)
(* ================================================================== *)

Import Pil.

(** ** Strings and paths *)

Section StringFacts.

Lemma rfind_from_spec (c : ascii) (s : string) :
  forall i last : Z, last < i ->
    let r := Str.rfind_from c s i last in
    Str.mem c (Str.drop (Z.to_nat (r + 1 - i)) s) = false /\ (r = last \/ i <= r).
Proof.
  induction s as [|a t IH]; intros i last Hlt; cbn [Str.rfind_from].
  - split; [|now left]. now destruct (Z.to_nat _).
  - set (last' := if Ascii.eqb a c then i else last).
    assert (last' < i + 1) as Hlt' by (subst last'; destruct (Ascii.eqb a c); lia).
    destruct (IH (i + 1) last' Hlt') as [Hmem Hpos].
    set (r := Str.rfind_from c t (i + 1) last') in *.
    destruct (Z_lt_le_dec r (i + 1)) as [Hsmall|Hbig].
    + assert (r = last') as Hr by lia.
      replace (Z.to_nat (r + 1 - (i + 1))) with O in Hmem by lia.
      cbn [Str.drop] in Hmem.
      subst last'. destruct (Ascii.eqb a c) eqn:Eac.
      * split; [|right; lia].
        replace (Z.to_nat (r + 1 - i)) with 1%nat by lia. exact Hmem.
      * split; [|left; exact Hr].
        replace (Z.to_nat (r + 1 - i)) with O by lia.
        cbn [Str.drop Str.mem]. now rewrite Eac.
    + split; [|right; lia].
      replace (Z.to_nat (r + 1 - i)) with (S (Z.to_nat (r + 1 - (i + 1)))) by lia.
      exact Hmem.
Qed.

(** A base name holds no path separator. *)
Lemma basename_no_sep (p : string) : Str.mem Str.sep (Str.basename p) = false.
Proof.
  unfold Str.basename, Str.rfind.
  destruct (rfind_from_spec Str.sep p 0 (-1)) as [Hmem _]; [lia|].
  cbn zeta in Hmem. now rewrite Z.sub_0_r in Hmem.
Qed.

Lemma append_assoc (a b c : string) : (a +:+ b) +:+ c = a +:+ (b +:+ c).
Proof.
  induction a as [|x a IH]; [reflexivity|].
  change (String x ((a +:+ b) +:+ c) = String x (a +:+ (b +:+ c))).
  now rewrite IH.
Qed.

(** A stem without a dot is copied unchanged by the substitution of a
    pattern that starts with a dot. *)
Lemma replace_from_skips (old' new stem t : string) :
  Str.mem "." stem = false ->
  Str.replace_from (String "." old') new 0 (stem +:+ t)
  = stem +:+ Str.replace_from (String "." old') new 0 t.
Proof.
  induction stem as [|c r IH]; intros Hdot; [reflexivity|].
  cbn [Str.mem] in Hdot. apply orb_false_elim in Hdot as [Hc Hr].
  change (String c r +:+ t) with (String c (r +:+ t)).
  cbn [Str.replace_from String.prefix].
  destruct (ascii_dec "." c) as [<-|Hne]; [discriminate Hc|].
  rewrite (IH Hr). reflexivity.
Qed.

(** The string functions on the paths of one run. *)
Example python_string_functions :
  Str.replace ".obj" ".mtl" "a/photo_male_avatar.obj" = "a/photo_male_avatar.mtl"
  /\ Str.basename "a/b/photo.png" = "photo.png"
  /\ Str.dirname "a/b/photo.png" = "a/b"
  /\ Str.splitext "a/b/photo_avatar.obj" = ("a/b/photo_avatar", ".obj")
  /\ Str.join "a/b" "c.png" = "a/b/c.png"
  /\ Str.join EmptyString "c.png" = "c.png"
  /\ Str.splitext ".bashrc" = (".bashrc", EmptyString)
  /\ Str.replace "aa" "b" "aaaaa" = "bba"
  /\ Str.count ".png" "x_bodymask_bodymask.png" = 1%nat.
Proof. repeat split; reflexivity. Qed.

End StringFacts.

(** ** Body measurements *)

Section MeasureFacts.

Import Measure.

Lemma get_xy_lookup {F : Type} `{FloatOps F} (lms : list (landmark F)) (size : Z * Z)
    (i : nat) (lm : landmark F) :
  lms !! i = Some lm ->
  get_xy lms size i =
    Ok (fmul (lm_x lm) (of_int (fst size)), fmul (lm_y lm) (of_int (snd size))).
Proof. intros E. unfold get_xy, getitem. now rewrite E. Qed.

Lemma get_xy_out_of_range {F : Type} `{FloatOps F} (lms : list (landmark F))
    (size : Z * Z) (i : nat) :
  (length lms <= i)%nat -> get_xy lms size i = Raise IndexError.
Proof.
  intros Hle. unfold get_xy, getitem.
  now rewrite (proj2 (lookup_ge_None lms i) Hle).
Qed.

(** Whatever the index, [get_xy] answers a point or raises [IndexError]. *)
Lemma get_xy_cases {F : Type} `{FloatOps F} (lms : list (landmark F))
    (size : Z * Z) (i : nat) :
  (exists p, get_xy lms size i = Ok p) \/ get_xy lms size i = Raise IndexError.
Proof.
  unfold get_xy, getitem. destruct (lms !! i); cbn; eauto.
Qed.

Lemma norm_is_distance (p q : R * R) :
  linalg_norm (array_sub p q) = euclidean_distance p q.
Proof.
  unfold linalg_norm, array_sub, euclidean_distance. cbn.
  f_equal. ring.
Qed.

Lemma joint_lookup (lms : list (landmark R)) (i : nat) :
  (i < length lms)%nat -> lms !! i = Some (joint lms i).
Proof.
  intros Hi. unfold joint.
  destruct (lookup_lt_is_Some_2 lms i Hi) as [lm E].
  rewrite E. f_equal. symmetry. now apply nth_lookup_Some.
Qed.

Lemma estimate_real (lms : list (landmark R)) (size : Z * Z) :
  length lms = 33%nat ->
  estimate_body_measurements lms size =
    Ok (Measurements
          (euclidean_distance (pixel_point size (joint lms 11))
                              (pixel_point size (joint lms 12)))
          (euclidean_distance (pixel_point size (joint lms 23))
                              (pixel_point size (joint lms 24)))
          (euclidean_distance
             (midpoint (pixel_point size (joint lms 11)) (pixel_point size (joint lms 12)))
             (midpoint (pixel_point size (joint lms 27)) (pixel_point size (joint lms 28))))).
Proof.
  intros Hlen.
  unfold estimate_body_measurements, left_shoulder, right_shoulder,
    left_hip, right_hip, left_ankle, right_ankle.
  rewrite !(fun i Hi => get_xy_lookup lms size i _ (joint_lookup lms i Hi)) by lia.
  cbn [bind]. rewrite !norm_is_distance. reflexivity.
Qed.

Lemma sqrt_of_square (a : R) : (0 <= a)%R -> R_sqrt.sqrt (a * a) = a.
Proof. intros Ha. now apply sqrt_square. Qed.

End MeasureFacts.

Section MeasureClaims.

Import Measure.

(** C3. For every 33-element pose-landmark sequence and image size, in the
    arithmetic of the code (binary64, with whatever dot product numpy
    uses) as in any other, [estimate_body_measurements] returns (it does
    not raise) the distance between the pixel-space points of landmarks 11
    and 12 as shoulder width, that between landmarks 23 and 24 as hip width,
    and that between the midpoint of the shoulders and the midpoint of
    landmarks 27 and 28 as height, each computed as [sqrt(dot(d, d))] on the
    difference [d] of the two points.  In binary64, on a 1000 x 1000 image
    with shoulders at (0.4,0.3)/(0.6,0.3) and ankles at
    (0.45,0.9)/(0.55,0.9), the shoulder width is 200.0 and the height is
    600.0, whatever the other landmarks.  In exact arithmetic [distance] is
    the Euclidean distance. *)
Theorem estimate_body_measurements_euclidean :
  (forall (F : Type) (ops : FloatOps F) (lms : list (landmark F)) (size : Z * Z),
     length lms = 33%nat ->
     exists l_shoulder r_shoulder l_hip r_hip l_ankle r_ankle,
       lms !! 11%nat = Some l_shoulder /\ lms !! 12%nat = Some r_shoulder
       /\ lms !! 23%nat = Some l_hip /\ lms !! 24%nat = Some r_hip
       /\ lms !! 27%nat = Some l_ankle /\ lms !! 28%nat = Some r_ankle
       /\ estimate_body_measurements lms size
          = Ok (Measurements
                  (distance (pixel_space size l_shoulder) (pixel_space size r_shoulder))
                  (distance (pixel_space size l_hip) (pixel_space size r_hip))
                  (distance
                     (halfway (pixel_space size l_shoulder) (pixel_space size r_shoulder))
                     (halfway (pixel_space size l_ankle) (pixel_space size r_ankle)))))
  /\ (forall lms : list (landmark PrimFloat.float),
        let mk n d := PrimFloat.div (of_int n) (of_int d) in
        length lms = 33%nat ->
        lms !! 11%nat = Some (Landmark (mk 4 10) (mk 3 10)) ->
        lms !! 12%nat = Some (Landmark (mk 6 10) (mk 3 10)) ->
        lms !! 27%nat = Some (Landmark (mk 45 100) (mk 9 10)) ->
        lms !! 28%nat = Some (Landmark (mk 55 100) (mk 9 10)) ->
        exists m, estimate_body_measurements lms (1000, 1000) = Ok m
                  /\ shoulder_width m = of_int 200 /\ height m = of_int 600)
  /\ (forall p q : R * R,
        distance p q = R_sqrt.sqrt ((fst p - fst q) ^ 2 + (snd p - snd q) ^ 2)%R).
Proof.
  split; [|split].
  - intros F ops lms size Hlen.
    destruct (lookup_lt_is_Some_2 lms 11) as [a Ha]; [lia|].
    destruct (lookup_lt_is_Some_2 lms 12) as [b Hb]; [lia|].
    destruct (lookup_lt_is_Some_2 lms 23) as [c Hc]; [lia|].
    destruct (lookup_lt_is_Some_2 lms 24) as [d Hd]; [lia|].
    destruct (lookup_lt_is_Some_2 lms 27) as [e He]; [lia|].
    destruct (lookup_lt_is_Some_2 lms 28) as [f Hf]; [lia|].
    exists a, b, c, d, e, f. repeat (split; [assumption|]).
    unfold estimate_body_measurements, left_shoulder, right_shoulder,
      left_hip, right_hip, left_ankle, right_ankle.
    rewrite (get_xy_lookup lms size 11 a Ha), (get_xy_lookup lms size 12 b Hb),
      (get_xy_lookup lms size 23 c Hc), (get_xy_lookup lms size 24 d Hd),
      (get_xy_lookup lms size 27 e He), (get_xy_lookup lms size 28 f Hf).
    reflexivity.
  - intros lms mk Hlen H11 H12 H27 H28.
    destruct (lookup_lt_is_Some_2 lms 23) as [c Hc]; [lia|].
    destruct (lookup_lt_is_Some_2 lms 24) as [d Hd]; [lia|].
    unfold estimate_body_measurements, left_shoulder, right_shoulder,
      left_hip, right_hip, left_ankle, right_ankle.
    rewrite (get_xy_lookup lms _ 11 _ H11), (get_xy_lookup lms _ 12 _ H12),
      (get_xy_lookup lms _ 23 c Hc), (get_xy_lookup lms _ 24 d Hd),
      (get_xy_lookup lms _ 27 _ H27), (get_xy_lookup lms _ 28 _ H28).
    cbn [bind]. eexists. split; [reflexivity|].
    cbn [shoulder_width height]. split; vm_compute; reflexivity.
  - intros p q. unfold distance. cbn. f_equal. ring.
Qed.

(** The scenario evaluated in binary64: 33 landmarks, the joints the code
    ignores at the image centre. *)
Lemma estimate_body_measurements_euclidean_witness :
  let mk n d := PrimFloat.div (of_int n) (of_int d) in
  exists m,
    estimate_body_measurements
      (scenario_pose mk (Landmark (mk 1 2) (mk 1 2))) (1000, 1000) = Ok m
    /\ shoulder_width m = of_int 200 /\ height m = of_int 600.
Proof.
  exact (proj1 (proj2 estimate_body_measurements_euclidean)
           (scenario_pose (fun n d => PrimFloat.div (of_int n) (of_int d))
              (Landmark (PrimFloat.div (of_int 1) (of_int 2))
                        (PrimFloat.div (of_int 1) (of_int 2))))
           eq_refl eq_refl eq_refl eq_refl eq_refl).
Defined.

(** The same scenario in IEEE binary64, as CPython and numpy run it:
    shoulder width 200.0, hip width 0.0, height 600.0. *)
Example estimate_body_measurements_binary64 :
  let mk n d := PrimFloat.div (of_int n) (of_int d) in
  estimate_body_measurements (scenario_pose mk (Landmark (mk 1 2) (mk 1 2))) (1000, 1000)
  = Ok (Measurements (of_int 200) (of_int 0) (of_int 600)).
Proof. vm_compute. reflexivity. Qed.

(** C7. For every pose-landmark sequence of fewer than 29 elements,
    [estimate_body_measurements] raises [IndexError] and returns no
    measurements, whatever the arithmetic. *)
Theorem estimate_body_measurements_short_sequence
    {F : Type} `{FloatOps F} (lms : list (landmark F)) (size : Z * Z) :
  (length lms < 29)%nat ->
  estimate_body_measurements lms size = Raise IndexError.
Proof.
  intros Hshort.
  assert (get_xy lms size right_ankle = Raise IndexError) as H28
    by (apply get_xy_out_of_range; unfold right_ankle; lia).
  unfold estimate_body_measurements.
  repeat match goal with
  | |- context [bind (get_xy lms size ?i) _] =>
      lazymatch i with
      | right_ankle => rewrite H28; cbn [bind]
      | _ => destruct (get_xy_cases lms size i) as [[? ->] | ->]; cbn [bind]
      end
  end; reflexivity.
Qed.

(** A sequence of 12 landmarks: index 11 is there, index 12 is not. *)
Lemma estimate_body_measurements_short_sequence_witness :
  estimate_body_measurements (replicate 12 (Landmark 0%R 0%R)) (640, 480)
  = Raise IndexError.
Proof.
  apply (estimate_body_measurements_short_sequence
           (replicate 12 (Landmark 0%R 0%R)) (640, 480)).
  cbn. lia.
Defined.

End MeasureClaims.

(** ** Colour sampling *)

Section ColorFacts.

Import ImageUtils.

(** The two tiers of [extract_face_landmarks] both yield nothing exactly
    when the picture cannot be opened, a detector raises, or the face mesh
    finds no face and the face detector no box. *)
Lemma no_face_evidence_iff (s : scene) :
  extract_face_landmarks s = None <->
  (exists e, pil_open s = Raise e)
  \/ (exists e, face_mesh s = Raise e)
  \/ (face_mesh s = Ok []
      /\ ((exists e, face_detection s = Raise e) \/ face_detection s = Ok [])).
Proof.
  unfold extract_face_landmarks.
  destruct (pil_open s) as [image|e0]; [|split; eauto].
  destruct (face_mesh s) as [[|face faces]|e1].
  - destruct (face_detection s) as [[|box boxes]|e2].
    + split; eauto 6.
    + destruct (box_corners _ box) as [[[x1 y1] x2] y2].
      split; [discriminate|].
      intros [[e E]|[[e E]|[_ [[e E]|E]]]]; discriminate.
    + split; eauto 6.
  - split; [discriminate|].
    intros [[e E]|[[e E]|[E _]]]; discriminate.
  - split; eauto 6.
Qed.

(** C6. When face-landmark extraction yields nothing at every fallback
    tier, the colour sample is exactly the default skin tone (198,134,66)
    with an absent eye colour. *)
Theorem no_face_gives_default_skin_and_no_eye (s : scene) :
  extract_face_landmarks s = None ->
  extract_skin_color s = Ok (Some (198, 134, 66))
  /\ extract_eye_color s = Ok None
  /\ analyze_face s = Ok (ColorSample (Some (198, 134, 66)) None).
Proof.
  intros Hnone. unfold analyze_face, extract_skin_color, extract_eye_color.
  rewrite Hnone. cbn. repeat split; reflexivity.
Qed.

Lemma no_face_gives_default_skin_and_no_eye_witness :
  extract_skin_color faceless_scene = Ok (Some (198, 134, 66))
  /\ extract_eye_color faceless_scene = Ok None
  /\ analyze_face faceless_scene = Ok (ColorSample (Some (198, 134, 66)) None).
Proof.
  apply (no_face_gives_default_skin_and_no_eye faceless_scene).
  reflexivity.
Defined.

(** With the four box corners as landmarks the cheek index 234 is out of
    range: the sampler leaves the default only when there is no evidence. *)
Example box_corner_tier_sample :
  let s := Scene (Ok (Pil.new RGB 640 480 (0, 0, 0, 255))) (Ok [])
                 (Ok [RelBox (1 # 4) (1 # 4) (1 # 2) (1 # 2)])
                 (Some (Raster 480 640 (fun _ _ => (90, 120, 200)))) in
  extract_face_landmarks s = Some [(160, 120); (480, 120); (480, 360); (160, 360)]
  /\ extract_skin_color s = Raise IndexError
  /\ extract_eye_color s = Ok None.
Proof. vm_compute. repeat split; reflexivity. Qed.

(** A dense mesh of 478 points on a uniform picture: both colours are the
    picture's colour. *)
Example dense_mesh_sample :
  let s := Scene (Ok (Pil.new RGB 640 480 (0, 0, 0, 255)))
                 (Ok [replicate 478 (1 # 2, 1 # 2)]) (Ok [])
                 (Some (Raster 480 640 (fun _ _ => (90, 120, 200)))) in
  analyze_face s = Ok (ColorSample (Some (90, 120, 200)) (Some (90, 120, 200))).
Proof. vm_compute. reflexivity. Qed.

End ColorFacts.

(** ** Names of the debug artifacts *)

Section DebugPaths.

Import ImageUtils.

(** Evaluates the substitution on the literal that follows the stem. *)
Ltac substitute_after stem Hdot :=
  repeat (rewrite (replace_from_skips _ _ stem _ Hdot);
          match goal with
          | |- context [Str.replace_from ?o ?n 0 ?t] =>
              lazymatch t with
              | context [stem] => fail
              | _ => let v := eval vm_compute in (Str.replace_from o n 0 t) in
                     change (Str.replace_from o n 0 t) with v
              end
          end).

(** C9 (the code departs from the claim). For every input path
    [stem.jpg] or [stem.jpeg] whose stem holds no dot, the body-mask path
    carries the suffix twice, [stem_bodymask_bodymask.png]: the suffix
    [_bodymask.png] itself contains [.png], and the third substitution
    rewrites the result of the first.  Only a [.png] input gets the suffix
    once.  The measurements path is as claimed for all three extensions. *)
Theorem bodymask_suffix_is_doubled (stem : string) :
  Str.mem "." stem = false ->
  bodymask_path (stem +:+ ".jpg") = stem +:+ "_bodymask_bodymask.png"
  /\ bodymask_path (stem +:+ ".jpeg") = stem +:+ "_bodymask_bodymask.png"
  /\ bodymask_path (stem +:+ ".png") = stem +:+ "_bodymask.png"
  /\ measurements_path (stem +:+ ".jpg") = stem +:+ "_measurements.txt"
  /\ measurements_path (stem +:+ ".jpeg") = stem +:+ "_measurements.txt"
  /\ measurements_path (stem +:+ ".png") = stem +:+ "_measurements.txt".
Proof.
  intros Hdot.
  unfold bodymask_path, measurements_path, swap_extension, Str.replace.
  repeat split; substitute_after stem Hdot; reflexivity.
Qed.

Lemma bodymask_suffix_is_doubled_witness :
  bodymask_path "photo.jpg" = "photo_bodymask_bodymask.png"
  /\ bodymask_path "photo.jpeg" = "photo_bodymask_bodymask.png"
  /\ bodymask_path "photo.png" = "photo_bodymask.png"
  /\ measurements_path "photo.jpg" = "photo_measurements.txt"
  /\ measurements_path "photo.jpeg" = "photo_measurements.txt"
  /\ measurements_path "photo.png" = "photo_measurements.txt".
Proof.
  apply (bodymask_suffix_is_doubled "photo"). reflexivity.
Defined.

(** The suffix occurs twice in the body-mask name of [photo.jpg]; a
    directory with a dot is rewritten as well. *)
Example debug_paths_of_photo :
  Str.count "_bodymask" (bodymask_path "photo.jpg") = 2%nat
  /\ bodymask_path "shots.jpg.d/photo.png"
     = "shots_bodymask_bodymask.png.d/photo_bodymask.png".
Proof. split; vm_compute; reflexivity. Qed.

(** The face-crop preview has the same defect, and its reader in
    [workerrun.py] looks for the single-suffix name
    [splitext(path)[0] + "_facecrop.png"]. *)
Example facecrop_written_and_read :
  facecrop_path "peakyblinders.jpg" = "peakyblinders_facecrop_facecrop.png"
  /\ fst (Str.splitext "peakyblinders.jpg") +:+ "_facecrop.png"
     = "peakyblinders_facecrop.png".
Proof. split; vm_compute; reflexivity. Qed.

(** The files [extract_body_shape] writes for [photo.jpg]. *)
Example extract_body_shape_files :
  snd (extract_body_shape
         (Some (Measure.scenario_pose Measure.ratio (Measure.Landmark 0%R 0%R)))
         (1000, 1000) "photo.jpg" true)
  = ["photo_bodymask_bodymask.png"; "photo_measurements.txt"].
Proof.
  unfold extract_body_shape.
  rewrite (estimate_real
             (Measure.scenario_pose Measure.ratio (Measure.Landmark 0%R 0%R))
             (1000, 1000) eq_refl).
  vm_compute. reflexivity.
Qed.

End DebugPaths.

(** ** Planar UV coordinates *)

Section UvFacts.

Import AvatarUtils.

Lemma foldl_qmin_const (x0 : Q) (l : list Q) :
  forall a, a == x0 -> Forall (fun x => x == x0) l -> foldl qmin a l == x0.
Proof.
  induction l as [|x l IH]; intros a Ha Hall; cbn [foldl]; [exact Ha|].
  inversion Hall as [|? ? Hx Hl]; subst.
  apply IH; [|exact Hl].
  unfold qmin. now destruct (Qle_bool a x).
Qed.

Lemma foldl_qmax_const (x0 : Q) (l : list Q) :
  forall a, a == x0 -> Forall (fun x => x == x0) l -> foldl qmax a l == x0.
Proof.
  induction l as [|x l IH]; intros a Ha Hall; cbn [foldl]; [exact Ha|].
  inversion Hall as [|? ? Hx Hl]; subst.
  apply IH; [|exact Hl].
  unfold qmax. now destruct (Qle_bool a x).
Qed.

(** On a non-empty column the reductions and the division never raise. *)
Lemma normalise_column_total (xs : list Q) :
  xs <> [] ->
  exists col, normalise_column xs = Ok col /\ length col = length xs.
Proof.
  destruct xs as [|x r]; [congruence|]. intros _.
  unfold normalise_column. cbn [np_min np_max bind].
  eexists. split; [reflexivity|]. now rewrite length_map.
Qed.

Lemma np_divide_zero_zero (a b : Q) : a == 0 -> b == 0 -> np_divide a b = NaN.
Proof.
  intros Ha Hb. unfold np_divide.
  now rewrite (proj2 (Qeq_bool_iff b 0) Hb), (proj2 (Qeq_bool_iff a 0) Ha).
Qed.

Lemma quotients_of_constants (x0 lo hi lo' : Q) (xs : list Q) :
  lo == x0 -> hi == x0 -> lo' == x0 ->
  Forall (fun x => x == x0) xs ->
  Forall (fun f => f = NaN) (map (fun x => np_divide (x - lo)%Q (hi - lo')%Q) xs).
Proof.
  intros Hlo Hhi Hlo' Hall.
  induction Hall as [|y ys Hy Hys IH]; cbn [map]; constructor; [|exact IH].
  apply np_divide_zero_zero.
  - rewrite Hlo, Hy. ring.
  - rewrite Hlo', Hhi. ring.
Qed.

(** A constant column: divisor zero, every quotient is 0/0. *)
Lemma normalise_column_constant (xs : list Q) (x0 : Q) (col : list npfloat) :
  Forall (fun x => x == x0) xs ->
  normalise_column xs = Ok col ->
  Forall (fun f => f = NaN) col.
Proof.
  destruct xs as [|x r]; [discriminate|].
  intros Hall. unfold normalise_column. cbn [np_min np_max bind].
  intros [= <-].
  inversion Hall as [|? ? Hx Hr]; subst.
  exact (quotients_of_constants x0 (foldl qmin x r) (foldl qmax x r) (foldl qmin x r)
           (x :: r) (foldl_qmin_const x0 r x Hx Hr) (foldl_qmax_const x0 r x Hx Hr)
           (foldl_qmin_const x0 r x Hx Hr) Hall).
Qed.

Lemma constant_column_divisor (xs : list Q) (x0 : Q) :
  xs <> [] -> Forall (fun x => x == x0) xs ->
  exists d, uv_divisor xs = Ok d /\ d == 0.
Proof.
  destruct xs as [|x r]; [congruence|]. intros _ Hall.
  inversion Hall as [|? ? Hx Hr]; subst.
  unfold uv_divisor. cbn [np_min np_max bind].
  eexists. split; [reflexivity|].
  rewrite (foldl_qmin_const x0 r x Hx Hr), (foldl_qmax_const x0 r x Hx Hr). ring.
Qed.

Lemma Forall_zip_fst {A B : Type} (P : A -> Prop) (l : list A) (k : list B) :
  Forall P l -> Forall (fun p => P (fst p)) (zip l k).
Proof.
  intros Hl. revert k. induction Hl as [|a l Ha Hl IH]; intros [|b k]; cbn;
    constructor; auto.
Qed.

Lemma Forall_zip_snd {A B : Type} (P : B -> Prop) (l : list A) (k : list B) :
  Forall P k -> Forall (fun p => P (snd p)) (zip l k).
Proof.
  intros Hk. revert l. induction Hk as [|b k Hb Hk IH]; intros [|a l]; cbn;
    constructor; auto.
Qed.

Lemma planar_uv_total (vs : list vertex) :
  vs <> [] ->
  exists uv, planar_uv vs = Ok uv /\ length uv = length vs.
Proof.
  intros Hne. unfold planar_uv.
  destruct (normalise_column_total (map vx vs)) as (us & -> & Hus);
    [destruct vs; [congruence|discriminate]|].
  destruct (normalise_column_total (map vy vs)) as (ws & -> & Hws);
    [destruct vs; [congruence|discriminate]|].
  cbn [bind]. eexists. split; [reflexivity|].
  rewrite length_map in Hus, Hws.
  rewrite length_zip_with. lia.
Qed.

Lemma planar_uv_columns (vs : list vertex) (uv : list (npfloat * npfloat)) :
  planar_uv vs = Ok uv ->
  exists us ws, normalise_column (map vx vs) = Ok us
                /\ normalise_column (map vy vs) = Ok ws /\ uv = zip us ws.
Proof.
  unfold planar_uv.
  destruct (normalise_column (map vx vs)) as [us|]; [|discriminate].
  destruct (normalise_column (map vy vs)) as [ws|]; [|discriminate].
  cbn [bind]. intros [= <-]. eauto.
Qed.

(** C4, as the claim states it, fails: on a vertex set whose [x]
    coordinates are all 1 the code's divisor is 0, not the guarded 1, and
    the [u] coordinate of every vertex is NaN. *)
Lemma planar_uv_divisor_unguarded :
  Forall (fun v => vx v == 1) flat_mesh
  /\ uv_divisor (map vx flat_mesh) = Ok 0%Q
  /\ guarded_divisor (map vx flat_mesh) = Ok 1%Q
  /\ (map fst <$> match planar_uv flat_mesh with
                  | Ok uv => Some uv
                  | Raise _ => None
                  end) = Some [NaN; NaN].
Proof.
  split; [repeat constructor|]. vm_compute. repeat split; reflexivity.
Qed.

(** C4, amended. For every non-empty vertex set the planar UV computation
    completes without raising; it applies no guard, so when all [x]
    coordinates are equal the divisor [x_max - x_min] is zero and the [u]
    coordinate of every vertex is NaN (the quotient 0/0), and likewise for
    [y] and [v]. *)
Theorem planar_uv_degenerate_is_nan (vs : list vertex) :
  vs <> [] ->
  exists uv,
    planar_uv vs = Ok uv
    /\ length uv = length vs
    /\ (forall x0, Forall (fun v => vx v == x0) vs ->
          (exists d, uv_divisor (map vx vs) = Ok d /\ d == 0)
          /\ Forall (fun p => fst p = NaN) uv)
    /\ (forall y0, Forall (fun v => vy v == y0) vs ->
          (exists d, uv_divisor (map vy vs) = Ok d /\ d == 0)
          /\ Forall (fun p => snd p = NaN) uv).
Proof.
  intros Hne.
  destruct (planar_uv_total vs Hne) as (uv & Huv & Hlen).
  exists uv. split; [exact Huv|]. split; [exact Hlen|].
  destruct (planar_uv_columns vs uv Huv) as (us & ws & Hus & Hws & ->).
  assert (map vx vs <> []) as Hx by (destruct vs; [congruence|discriminate]).
  assert (map vy vs <> []) as Hy by (destruct vs; [congruence|discriminate]).
  split.
  - intros x0 Hall.
    assert (Forall (fun x => x == x0) (map vx vs)) as Hcol by (apply Forall_map; exact Hall).
    split; [now apply constant_column_divisor with x0|].
    apply (Forall_zip_fst (fun f => f = NaN)).
    now apply normalise_column_constant with (map vx vs) x0.
  - intros y0 Hall.
    assert (Forall (fun y => y == y0) (map vy vs)) as Hcol by (apply Forall_map; exact Hall).
    split; [now apply constant_column_divisor with y0|].
    apply (Forall_zip_snd (fun f => f = NaN)).
    now apply normalise_column_constant with (map vy vs) y0.
Qed.

Lemma planar_uv_degenerate_is_nan_witness :
  exists uv,
    planar_uv flat_mesh = Ok uv
    /\ length uv = length flat_mesh
    /\ (forall x0, Forall (fun v => vx v == x0) flat_mesh ->
          (exists d, uv_divisor (map vx flat_mesh) = Ok d /\ d == 0)
          /\ Forall (fun p => fst p = NaN) uv)
    /\ (forall y0, Forall (fun v => vy v == y0) flat_mesh ->
          (exists d, uv_divisor (map vy flat_mesh) = Ok d /\ d == 0)
          /\ Forall (fun p => snd p = NaN) uv).
Proof.
  apply (planar_uv_degenerate_is_nan flat_mesh). discriminate.
Defined.

(** In [export_uv_template] the NaN reaches [int(...)], which raises
    [ValueError]; [fit_smplx_to_landmarks] catches it and writes no
    template. *)
Example export_uv_template_flat_mesh :
  forall (E : Externals) (env : environment) (out_path : string)
         (fs : gmap string file),
    export_uv_template env flat_mesh out_path 512 fs = (Raise ValueError, fs)
    /\ try_export_uv_template env flat_mesh fs = fs.
Proof.
  intros E env out_path fs.
  assert (uv_template_image flat_mesh 512 = Raise ValueError) as Himg
    by (vm_compute; reflexivity).
  unfold try_export_uv_template, export_uv_template. now rewrite Himg.
Qed.

End UvFacts.

(** ** Texture compositing *)

Section TextureFacts.

Import AvatarUtils.
Context `{E : Externals}.

(** After the first two layers there is one image object; [texture_img]
    and [draw] both name it. *)
Lemma face_layer_single (env : environment) (fs : gmap string file)
    (image_path : option string) :
  exists t, face_layer env fs image_path base_layer = Frame [t] 0 0.
Proof.
  unfold face_layer.
  destruct image_path as [path|]; [|eexists; reflexivity].
  destruct (path_exists fs path); [|eexists; reflexivity].
  destruct (ImageUtils.detect_faces _) as [[|box boxes]|e]; try (eexists; reflexivity).
  destruct (ImageUtils.crop_face _) as [face_img|]; [|eexists; reflexivity].
  destruct (ImageUtils.extract_face_landmarks _) as [[|lm lms]|];
    eexists; reflexivity.
Qed.

(** With no detected face the object still holds the flat fill. *)
Lemma face_layer_no_face (env : environment) (fs : gmap string file)
    (image_path : option string) :
  (forall path, image_path = Some path ->
     ImageUtils.detect_faces (photo env path) = Ok []) ->
  face_layer env fs image_path base_layer = base_layer.
Proof.
  intros Hno. unfold face_layer.
  destruct image_path as [path|]; [|reflexivity].
  rewrite (Hno path eq_refl). now destruct (path_exists fs path).
Qed.

(** No garment is looked up for a gender other than male and female. *)
Lemma garment_layer_other_gender (env : environment) (fs : gmap string file)
    (gender : string) (f : frame) :
  String.eqb gender "male" = false -> String.eqb gender "female" = false ->
  garment_layer env fs gender f = f.
Proof.
  intros Hm Hf. unfold garment_layer, outfit_path, outfit_base.
  now rewrite Hm, Hf.
Qed.

Lemma alpha_composite_same_size (t outfit : image) :
  im_width t = texture_size -> im_height t = texture_size ->
  alpha_composite (convert RGBA t)
    (resize (convert RGBA outfit) texture_size texture_size)
  = Ok (Image RGBA texture_size texture_size
          (fun x y => blend (pixel t x y)
                        (resample (convert RGBA outfit) texture_size texture_size x y))).
Proof.
  intros Hw Hh. unfold alpha_composite, resize.
  cbn [convert im_mode im_width im_height pixel].
  now rewrite Hw, Hh, !Z.eqb_refl.
Qed.

(** When a garment is applied, [texture_img] ends on the fourth object, the
    RGB copy of the blend of the first object with the garment. *)
Lemma garment_layer_applied (env : environment) (fs : gmap string file)
    (gender path : string) (outfit t : image) :
  outfit_path env fs gender = Some path ->
  open_image env path = Ok outfit ->
  im_width t = texture_size -> im_height t = texture_size ->
  exists a b c,
    garment_layer env fs gender (Frame [t] 0 0) = Frame [t; a; b; c] 3 0
    /\ forall x y,
         pixel c x y =
           opaque (rgb_of (blend (pixel t x y)
                             (resample (convert RGBA outfit)
                                texture_size texture_size x y))).
Proof.
  intros Hpath Hopen Hw Hh. unfold garment_layer.
  rewrite Hpath, Hopen. unfold alloc.
  cbn [heap texture_img draw length app].
  change ([t] !!! 0%nat) with t.
  change ([t; convert RGBA t] !!! 1%nat) with (convert RGBA t).
  rewrite (alpha_composite_same_size t outfit Hw Hh).
  cbn [heap texture_img draw length app].
  do 3 eexists. split; [reflexivity|].
  intros x y. reflexivity.
Qed.

Lemma face_layer_size (env : environment) (fs : gmap string file)
    (image_path : option string) (t : image) :
  face_layer env fs image_path base_layer = Frame [t] 0 0 ->
  im_width t = texture_size /\ im_height t = texture_size.
Proof.
  unfold face_layer.
  destruct image_path as [path|]; [|intros [= <-]; now split].
  destruct (path_exists fs path); [|intros [= <-]; now split].
  destruct (ImageUtils.detect_faces _) as [[|box boxes]|e];
    try (intros [= <-]; now split).
  destruct (ImageUtils.crop_face _) as [face_img|]; [|intros [= <-]; now split].
  destruct (ImageUtils.extract_face_landmarks _) as [[|lm lms]|];
    intros [= <-]; now split.
Qed.

(** The eye layer changes the object of [draw] and no other. *)
Lemma eye_layer_other_object (eye_color : option (Z * Z * Z)) (f : frame) :
  draw f <> texture_img f ->
  saved_texture (eye_layer eye_color f) = saved_texture f.
Proof.
  intros Hne. unfold eye_layer, saved_texture.
  destruct eye_color as [c|]; [|reflexivity].
  cbn [heap texture_img]. now apply list_lookup_total_alter_ne.
Qed.

(** C1 (the code departs from the claim). Whenever a garment overlay is
    applied, the saved texture is the same with and without an eye colour:
    each of its pixels is the blend of the garment over the first two
    layers, and the ellipses went to the image object that [texture_img]
    no longer names. *)
Theorem eyes_are_painted_on_the_discarded_image
    (env : environment) (fs : gmap string file) (gender path : string)
    (image_path : option string) (outfit : image) (eye : Z * Z * Z) :
  outfit_path env fs gender = Some path ->
  open_image env path = Ok outfit ->
  saved_texture (compose_texture env fs gender image_path (Some eye))
  = saved_texture (compose_texture env fs gender image_path None)
  /\ exists t,
       face_layer env fs image_path base_layer = Frame [t] 0 0
       /\ forall x y,
            pixel (saved_texture (compose_texture env fs gender image_path (Some eye))) x y
            = opaque (rgb_of (blend (pixel t x y)
                                (resample (convert RGBA outfit)
                                   texture_size texture_size x y))).
Proof.
  intros Hpath Hopen. unfold compose_texture.
  destruct (face_layer_single env fs image_path) as [t Ht].
  destruct (face_layer_size env fs image_path t Ht) as [Hw Hh].
  rewrite Ht.
  destruct (garment_layer_applied env fs gender path outfit t Hpath Hopen Hw Hh)
    as (a & b & c & -> & Hpix).
  split.
  - now rewrite !eye_layer_other_object by (cbn; lia).
  - exists t. split; [reflexivity|]. intros x y.
    rewrite eye_layer_other_object by (cbn; lia). exact (Hpix x y).
Qed.

(** Without a garment the ellipses do reach the saved texture. *)
Lemma eyes_visible_without_garment
    (env : environment) (fs : gmap string file) (gender : string)
    (image_path : option string) (eye : Z * Z * Z) (x y : Z) :
  outfit_path env fs gender = None ->
  ellipse_covers (eye_box (fst left_eye_uv) (snd left_eye_uv) eye_radius) x y = true
  \/ ellipse_covers (eye_box (fst right_eye_uv) (snd right_eye_uv) eye_radius) x y = true ->
  pixel (saved_texture (compose_texture env fs gender image_path (Some eye))) x y
  = opaque eye.
Proof.
  intros Hnone Hcov. unfold compose_texture, garment_layer. rewrite Hnone.
  destruct (face_layer_single env fs image_path) as [t ->].
  unfold eye_layer, saved_texture, draw_ellipse. cbn. cbn in Hcov.
  match goal with
  | |- (if ?right then _ else _) = _ => destruct right eqn:Er; [reflexivity|]
  end.
  destruct Hcov as [Hl|Hr]; [now rewrite Hl | congruence].
Qed.

End TextureFacts.

(** ** Mesh assembly and export *)

Section ExportFacts.

Import AvatarUtils.
Context `{E : Externals}.

(** On a non-empty vertex set the assembly succeeds, and the mesh it
    returns holds the texture visual whatever [skin_color] was. *)
Lemma assemble_mesh_total (mesh : Trimesh) (vs : list vertex) (texture : image)
    (skin_color : option (list Z)) :
  vs <> [] ->
  exists uv,
    planar_uv vs = Ok uv
    /\ assemble_mesh mesh vs texture skin_color
       = Ok (Mesh (vertices mesh) (faces mesh) (TextureVisuals uv texture)).
Proof.
  intros Hne. destruct (planar_uv_total vs Hne) as (uv & Huv & _).
  exists uv. split; [exact Huv|].
  unfold assemble_mesh. rewrite Huv. cbn [bind]. unfold set_visual.
  destruct skin_color as [c|]; [|reflexivity].
  unfold set_vertex_colors. now destruct (mesh_visual mesh).
Qed.

Lemma export_avatar_ok (env : environment) (out_path : string) (vs : list vertex)
    (mesh : Trimesh) (texture : image) (skin_color : option (list Z))
    (fs : gmap string file) :
  vs <> [] ->
  io_ok env SaveTexture = true ->
  io_ok env WriteMtl = true ->
  exists uv,
    planar_uv vs = Ok uv
    /\ export_avatar env out_path vs mesh texture skin_color fs
       = let m := Mesh (vertices mesh) (faces mesh) (TextureVisuals uv texture) in
         let done := export_glb env out_path m
                       (write_obj env out_path m (before_obj out_path texture fs)) in
         (Ok (fst done), snd done).
Proof.
  intros Hne Hsave Hmtl.
  destruct (assemble_mesh_total mesh vs texture skin_color Hne) as (uv & Huv & Hm).
  exists uv. split; [exact Huv|].
  unfold export_avatar. rewrite Hsave, Hmtl, Hm. unfold before_obj.
  cbn zeta. now destruct (export_glb _ _ _ _).
Qed.

Lemma fit_smplx_to_landmarks_ok (env : environment) (gender out_path : string)
    (image_path : option string) (skin_color : option (list Z))
    (eye_color : option (Z * Z * Z)) (fs : gmap string file)
    (vs : list vertex) (fcs : list (nat * nat * nat)) :
  smplx_model env gender = Ok (vs, fcs) ->
  vs <> [] ->
  io_ok env SaveTexture = true ->
  io_ok env WriteMtl = true ->
  exists uv,
    planar_uv vs = Ok uv
    /\ fit_smplx_to_landmarks env gender out_path image_path skin_color eye_color fs
       = let texture :=
           saved_texture
             (compose_texture env (staged env out_path vs fs) gender image_path eye_color) in
         let m := Mesh vs fcs (TextureVisuals uv texture) in
         let done := export_glb env out_path m
                       (write_obj env out_path m
                          (before_obj out_path texture (staged env out_path vs fs))) in
         (Ok (fst done), snd done).
Proof.
  intros Hmodel Hne Hsave Hmtl.
  unfold fit_smplx_to_landmarks. rewrite Hmodel. cbn zeta.
  destruct (export_avatar_ok env out_path vs (Mesh vs fcs (ColorVisuals None))
              (saved_texture
                 (compose_texture env (staged env out_path vs fs) gender image_path eye_color))
              skin_color (staged env out_path vs fs) Hne Hsave Hmtl)
    as (uv & Huv & Hrun).
  exists uv. split; [exact Huv|]. exact Hrun.
Qed.

Lemma export_glb_ok (env : environment) (out_path : string) (m : Trimesh)
    (fs : gmap string file) :
  io_ok env ExportGlb = true ->
  fst (export_glb env out_path m fs) = glb_path out_path
  /\ snd (export_glb env out_path m fs) !! glb_path out_path = Some (Glb m).
Proof.
  intros Hglb. unfold export_glb. rewrite Hglb. cbn [fst snd].
  split; [reflexivity|]. apply lookup_insert_eq.
Qed.

Lemma export_glb_other (env : environment) (out_path p : string) (m : Trimesh)
    (fs : gmap string file) :
  glb_path out_path <> p ->
  snd (export_glb env out_path m fs) !! p = fs !! p.
Proof.
  intros Hne. unfold export_glb.
  destruct (io_ok env ExportGlb); cbn [snd]; [|reflexivity].
  now apply lookup_insert_ne.
Qed.

End ExportFacts.

Section ExportClaims.

Import AvatarUtils.
Context `{E : Externals}.

(** C2 (the code departs from the claim). In a run with no detected
    face, gender [neutral] and no eye colour, the run succeeds and every
    pixel of the texture in the returned artifact is the forced constant
    (10,10,10), whatever [skin_color] the caller passed. *)
Theorem neutral_texture_is_forced_constant
    (env : environment) (out_path : string) (image_path : option string)
    (skin_color : option (list Z)) (fs : gmap string file)
    (vs : list vertex) (fcs : list (nat * nat * nat)) :
  smplx_model env "neutral" = Ok (vs, fcs) ->
  vs <> [] ->
  io_ok env SaveTexture = true ->
  io_ok env WriteMtl = true ->
  io_ok env ExportGlb = true ->
  (forall path, image_path = Some path ->
     ImageUtils.detect_faces (photo env path) = Ok []) ->
  exists fs' uv texture,
    fit_smplx_to_landmarks env "neutral" out_path image_path skin_color None fs
    = (Ok (glb_path out_path), fs')
    /\ fs' !! glb_path out_path = Some (Glb (Mesh vs fcs (TextureVisuals uv texture)))
    /\ forall x y, pixel texture x y = (10, 10, 10, 255).
Proof.
  intros Hmodel Hne Hsave Hmtl Hglb Hface.
  destruct (fit_smplx_to_landmarks_ok env "neutral" out_path image_path skin_color
              None fs vs fcs Hmodel Hne Hsave Hmtl) as (uv & _ & ->).
  cbn zeta.
  match goal with
  | |- context [export_glb env out_path ?m ?f] =>
      destruct (export_glb_ok env out_path m f Hglb) as [-> Hfile]
  end.
  do 3 eexists. split; [reflexivity|]. split; [exact Hfile|].
  intros x y. unfold compose_texture.
  rewrite (face_layer_no_face env _ image_path Hface).
  now rewrite garment_layer_other_gender by reflexivity.
Qed.

(** C5 (the code departs from the claim). With a [skin_color] the run
    succeeds and the mesh of the returned artifact carries the texture and
    its UV coordinates but no per-vertex colours: the colours were stored
    in the visual object that the texture visual then replaced. *)
Theorem skin_vertex_colors_are_replaced
    (env : environment) (gender out_path : string) (image_path : option string)
    (skin : list Z) (eye_color : option (Z * Z * Z)) (fs : gmap string file)
    (vs : list vertex) (fcs : list (nat * nat * nat)) :
  smplx_model env gender = Ok (vs, fcs) ->
  vs <> [] ->
  io_ok env SaveTexture = true ->
  io_ok env WriteMtl = true ->
  io_ok env ExportGlb = true ->
  vertex_colors_of
    (set_vertex_colors (Mesh vs fcs (ColorVisuals None))
       (tile (vertex_color skin) (length vs)))
  = Some (replicate (length vs) (vertex_color skin))
  /\ exists fs' m,
       fit_smplx_to_landmarks env gender out_path image_path (Some skin) eye_color fs
       = (Ok (glb_path out_path), fs')
       /\ fs' !! glb_path out_path = Some (Glb m)
       /\ vertex_colors_of m = None
       /\ is_Some (texture_of m).
Proof.
  intros Hmodel Hne Hsave Hmtl Hglb. split; [reflexivity|].
  destruct (fit_smplx_to_landmarks_ok env gender out_path image_path (Some skin)
              eye_color fs vs fcs Hmodel Hne Hsave Hmtl) as (uv & _ & ->).
  cbn zeta.
  match goal with
  | |- context [export_glb env out_path ?m ?f] =>
      destruct (export_glb_ok env out_path m f Hglb) as [-> Hfile]
  end.
  do 2 eexists. split; [reflexivity|]. split; [exact Hfile|].
  split; [reflexivity|]. cbn. eauto.
Qed.

(** C8. After a run that wrote the texture and the material file and could
    open the mesh file, and whose derived paths name different files, the
    mesh file begins with the two lines [mtllib <material file name>] and
    [usemtl skin], followed by the records (trimesh's records for the mesh
    when its export succeeded); the material file is the single block
    [newmtl skin] with Ka 1, Kd 1, Ks 0, d 1, illum 2 and a [map_Kd] line
    that names the texture by its base name, which holds no directory
    separator. *)
Theorem exported_mesh_and_material_files
    (env : environment) (gender out_path : string) (image_path : option string)
    (skin_color : option (list Z)) (eye_color : option (Z * Z * Z))
    (fs : gmap string file) (vs : list vertex) (fcs : list (nat * nat * nat)) :
  smplx_model env gender = Ok (vs, fcs) ->
  vs <> [] ->
  io_ok env SaveTexture = true ->
  io_ok env WriteMtl = true ->
  io_ok env OpenObj = true ->
  glb_path out_path <> out_path ->
  glb_path out_path <> mtl_path out_path ->
  mtl_path out_path <> out_path ->
  let run :=
    fit_smplx_to_landmarks env gender out_path image_path skin_color eye_color fs in
  let mtl_name := Str.basename (mtl_path out_path) in
  let texture_name := Str.basename (user_image_path out_path) in
  is_ok (fst run) = true
  /\ (exists mesh records,
        snd run !! out_path
        = Some (Text ("mtllib " +:+ mtl_name +:+ nl +:+ "usemtl skin" +:+ nl
                      +:+ records))
        /\ (io_ok env ExportObj = true -> records = obj_text mesh))
  /\ snd run !! mtl_path out_path
     = Some (Text ("newmtl skin" +:+ nl +:+
                   "Ka 1.0 1.0 1.0" +:+ nl +:+
                   "Kd 1.0 1.0 1.0" +:+ nl +:+
                   "Ks 0.0 0.0 0.0" +:+ nl +:+
                   "d 1.0" +:+ nl +:+
                   "illum 2" +:+ nl +:+
                   "map_Kd " +:+ texture_name +:+ nl))
  /\ Str.mem "/" texture_name = false
  /\ Str.mem "/" mtl_name = false.
Proof.
  intros Hmodel Hne Hsave Hmtl Hopen Hgo Hgm Hmo run mtl_name texture_name.
  subst run.
  destruct (fit_smplx_to_landmarks_ok env gender out_path image_path skin_color
              eye_color fs vs fcs Hmodel Hne Hsave Hmtl) as (uv & _ & ->).
  cbn zeta. cbn [fst snd is_ok].
  split; [reflexivity|].
  rewrite !export_glb_other by assumption.
  unfold write_obj. rewrite Hopen.
  split; [|split; [|split]].
  - eexists. destruct (io_ok env ExportObj).
    + exists (obj_text (Mesh vs fcs (TextureVisuals uv
                 (saved_texture (compose_texture env (staged env out_path vs fs)
                                   gender image_path eye_color))))).
      rewrite lookup_insert_eq. unfold obj_header.
      rewrite !append_assoc. split; reflexivity.
    + exists EmptyString.
      rewrite lookup_insert_eq. unfold obj_header.
      split; [reflexivity|discriminate].
  - destruct (io_ok env ExportObj);
      (rewrite lookup_insert_ne by congruence);
      unfold before_obj; now rewrite lookup_insert_eq.
  - apply basename_no_sep.
  - apply basename_no_sep.
Qed.

(** C10. Once the texture and the material file are written, no outcome
    of the OBJ stage is propagated: the function returns the GLB path when
    the GLB export succeeds and [out_path] otherwise, the same value for a
    failed and for a complete OBJ write; and when the mesh file could not
    be opened, the run has written nothing to [out_path] (as long as
    [out_path] is not also the texture, material or GLB path). *)
Theorem obj_write_failure_is_not_propagated
    (env : environment) (gender out_path : string) (image_path : option string)
    (skin_color : option (list Z)) (eye_color : option (Z * Z * Z))
    (fs : gmap string file) (vs : list vertex) (fcs : list (nat * nat * nat)) :
  smplx_model env gender = Ok (vs, fcs) ->
  vs <> [] ->
  io_ok env SaveTexture = true ->
  io_ok env WriteMtl = true ->
  let run :=
    fit_smplx_to_landmarks env gender out_path image_path skin_color eye_color fs in
  fst run = Ok (if io_ok env ExportGlb then glb_path out_path else out_path)
  /\ (io_ok env OpenObj = false ->
      glb_path out_path <> out_path ->
      mtl_path out_path <> out_path ->
      user_image_path out_path <> out_path ->
      snd run !! out_path = staged env out_path vs fs !! out_path).
Proof.
  intros Hmodel Hne Hsave Hmtl run. subst run.
  destruct (fit_smplx_to_landmarks_ok env gender out_path image_path skin_color
              eye_color fs vs fcs Hmodel Hne Hsave Hmtl) as (uv & _ & ->).
  cbn zeta. cbn [fst snd]. split.
  - unfold export_glb. now destruct (io_ok env ExportGlb).
  - intros Hopen Hgo Hmo Huo.
    rewrite export_glb_other by assumption.
    unfold write_obj. rewrite Hopen. unfold before_obj.
    rewrite !lookup_insert_ne by assumption.
    unfold remove_if_exists.
    destruct (path_exists _ _); [|reflexivity].
    now rewrite lookup_delete_ne.
Qed.

End ExportClaims.

(** ** The properties on concrete runs *)

Section Runs.

Import AvatarUtils.

#[local] Existing Instance reference_externals.

Lemma eyes_are_painted_on_the_discarded_image_witness :
  let compose := compose_texture (E := reference_externals)
                   (world all_ok) with_male_outfit "male" None in
  saved_texture (compose (Some (0, 0, 255))) = saved_texture (compose None)
  /\ exists t,
       face_layer (E := reference_externals) (world all_ok) with_male_outfit None base_layer
       = Frame [t] 0 0
       /\ forall x y,
            pixel (saved_texture (compose (Some (0, 0, 255)))) x y
            = opaque (rgb_of (blend (pixel t x y)
                                (resample (convert RGBA (Pil.new RGBA 64 64 (200, 0, 0, 128)))
                                   texture_size texture_size x y))).
Proof.
  apply (eyes_are_painted_on_the_discarded_image (E := reference_externals)
           (world all_ok) with_male_outfit "male"
           "/srv/ml/fashion_assets/male_outfit.png" None
           (Pil.new RGBA 64 64 (200, 0, 0, 128)) (0, 0, 255)).
  - vm_compute. reflexivity.
  - reflexivity.
Defined.

(** The centre of the left eye, (220,163): blue without a garment, the
    blend of the garment over the fill with one. *)
Example left_eye_centre :
  let compose gender fs :=
    compose_texture (E := reference_externals) (world all_ok) fs gender None
      (Some (0, 0, 255)) in
  pixel (saved_texture (compose "neutral" with_male_outfit)) 220 163 = (0, 0, 255, 255)
  /\ pixel (saved_texture (compose "male" ∅)) 220 163 = (0, 0, 255, 255)
  /\ pixel (saved_texture (compose "male" with_male_outfit)) 220 163 = (105, 5, 5, 255)
  /\ pixel (heap (compose "male" with_male_outfit) !!! 0%nat) 220 163 = (0, 0, 255, 255).
Proof. vm_compute. repeat split; reflexivity. Qed.

(** With a detected face the crop is pasted around (256,163); the corner
    keeps the fill.  With garment and eye colour the eye centre shows the
    garment over the face, and the first image object holds the eye. *)
Example face_garment_and_eyes :
  let compose gender eye :=
    compose_texture (E := reference_externals) studio with_photo_and_outfit gender
      (Some "/data/photo.jpg") eye in
  pixel (saved_texture (compose "neutral" None)) 256 163 = (90, 120, 200, 255)
  /\ pixel (saved_texture (compose "neutral" None)) 10 10 = (10, 10, 10, 255)
  /\ pixel (saved_texture (compose "neutral" (Some (0, 0, 255)))) 220 163 = (0, 0, 255, 255)
  /\ pixel (saved_texture (compose "male" (Some (0, 0, 255)))) 220 163 = (145, 60, 100, 255)
  /\ pixel (saved_texture (compose "male" None)) 220 163 = (145, 60, 100, 255)
  /\ texture_img (compose "male" (Some (0, 0, 255))) = 3%nat
  /\ draw (compose "male" (Some (0, 0, 255))) = 0%nat.
Proof. vm_compute. repeat split; reflexivity. Qed.

Lemma neutral_texture_is_forced_constant_witness :
  exists fs' uv texture,
    fit_smplx_to_landmarks (E := reference_externals) (world all_ok) "neutral"
      "/data/photo_neutral_avatar.obj" (Some "/data/photo.jpg")
      (Some [198; 134; 66]) None ∅
    = (Ok "/data/photo_neutral_avatar.glb", fs')
    /\ fs' !! "/data/photo_neutral_avatar.glb"
       = Some (Glb (Mesh triangle [(0, 1, 2)%nat] (TextureVisuals uv texture)))
    /\ forall x y, pixel texture x y = (10, 10, 10, 255).
Proof.
  apply (neutral_texture_is_forced_constant (E := reference_externals)
           (world all_ok) "/data/photo_neutral_avatar.obj" (Some "/data/photo.jpg")
           (Some [198; 134; 66]) ∅ triangle [(0, 1, 2)%nat]);
    try reflexivity.
  discriminate.
Defined.

Lemma skin_vertex_colors_are_replaced_witness :
  vertex_colors_of
    (set_vertex_colors (Mesh triangle [(0, 1, 2)%nat] (ColorVisuals None))
       (tile (vertex_color [198; 134; 66]) (length triangle)))
  = Some (replicate (length triangle) (vertex_color [198; 134; 66]))
  /\ exists fs' m,
       fit_smplx_to_landmarks (E := reference_externals) (world all_ok) "female"
         "/data/photo_female_avatar.obj" None (Some [198; 134; 66]) None ∅
       = (Ok (glb_path "/data/photo_female_avatar.obj"), fs')
       /\ fs' !! glb_path "/data/photo_female_avatar.obj" = Some (Glb m)
       /\ vertex_colors_of m = None
       /\ is_Some (texture_of m).
Proof.
  apply (skin_vertex_colors_are_replaced (E := reference_externals)
           (world all_ok) "female" "/data/photo_female_avatar.obj" None
           [198; 134; 66] None ∅ triangle [(0, 1, 2)%nat]);
    try reflexivity.
  discriminate.
Defined.

(** The colours the code had stored one statement earlier. *)
Example skin_vertex_colors_before_replacement :
  vertex_colors_of
    (set_vertex_colors (Mesh triangle [] (ColorVisuals None))
       (tile (vertex_color [198; 134; 66]) (length triangle)))
  = Some [[198; 134; 66; 255]; [198; 134; 66; 255]; [198; 134; 66; 255]].
Proof. reflexivity. Qed.

Lemma distinct_strings (a b : string) : String.eqb a b = false -> a <> b.
Proof. intros Hab. now apply String.eqb_neq. Qed.

Lemma exported_mesh_and_material_files_witness :
  let run :=
    fit_smplx_to_landmarks (E := reference_externals) (world all_ok) "male"
      "/data/photo_male_avatar.obj" None None None with_male_outfit in
  is_ok (fst run) = true
  /\ (exists mesh records,
        snd run !! "/data/photo_male_avatar.obj"
        = Some (Text ("mtllib " +:+ Str.basename (mtl_path "/data/photo_male_avatar.obj")
                      +:+ nl +:+ "usemtl skin" +:+ nl +:+ records))
        /\ (io_ok (world all_ok) ExportObj = true -> records = obj_text mesh))
  /\ snd run !! mtl_path "/data/photo_male_avatar.obj"
     = Some (Text ("newmtl skin" +:+ nl +:+
                   "Ka 1.0 1.0 1.0" +:+ nl +:+
                   "Kd 1.0 1.0 1.0" +:+ nl +:+
                   "Ks 0.0 0.0 0.0" +:+ nl +:+
                   "d 1.0" +:+ nl +:+
                   "illum 2" +:+ nl +:+
                   "map_Kd "
                   +:+ Str.basename (user_image_path "/data/photo_male_avatar.obj")
                   +:+ nl))
  /\ Str.mem "/" (Str.basename (user_image_path "/data/photo_male_avatar.obj")) = false
  /\ Str.mem "/" (Str.basename (mtl_path "/data/photo_male_avatar.obj")) = false.
Proof.
  apply (exported_mesh_and_material_files (E := reference_externals)
           (world all_ok) "male" "/data/photo_male_avatar.obj" None None None
           with_male_outfit triangle [(0, 1, 2)%nat]);
    try reflexivity; try discriminate;
    apply distinct_strings; vm_compute; reflexivity.
Defined.

(** The names the derivations give for that run. *)
Example derived_paths :
  user_image_path "/data/photo_male_avatar.obj" = "/data/photo_male.png"
  /\ mtl_path "/data/photo_male_avatar.obj" = "/data/photo_male_avatar.mtl"
  /\ glb_path "/data/photo_male_avatar.obj" = "/data/photo_male_avatar.glb"
  /\ mtl_text (Str.basename (user_image_path "/data/photo_male_avatar.obj"))
     = "newmtl skin" +:+ nl +:+ "Ka 1.0 1.0 1.0" +:+ nl +:+ "Kd 1.0 1.0 1.0" +:+ nl +:+
       "Ks 0.0 0.0 0.0" +:+ nl +:+ "d 1.0" +:+ nl +:+ "illum 2" +:+ nl +:+
       "map_Kd photo_male.png" +:+ nl.
Proof. vm_compute. repeat split; reflexivity. Qed.

Lemma obj_write_failure_is_not_propagated_witness :
  let run :=
    fit_smplx_to_landmarks (E := reference_externals) (world obj_and_glb_fail) "male"
      "/data/photo_male_avatar.obj" None None None ∅ in
  fst run = Ok (if io_ok (world obj_and_glb_fail) ExportGlb
                then glb_path "/data/photo_male_avatar.obj"
                else "/data/photo_male_avatar.obj")
  /\ (io_ok (world obj_and_glb_fail) OpenObj = false ->
      glb_path "/data/photo_male_avatar.obj" <> "/data/photo_male_avatar.obj" ->
      mtl_path "/data/photo_male_avatar.obj" <> "/data/photo_male_avatar.obj" ->
      user_image_path "/data/photo_male_avatar.obj" <> "/data/photo_male_avatar.obj" ->
      snd run !! "/data/photo_male_avatar.obj"
      = staged (E := reference_externals) (world obj_and_glb_fail)
          "/data/photo_male_avatar.obj" triangle ∅ !! "/data/photo_male_avatar.obj").
Proof.
  apply (obj_write_failure_is_not_propagated (E := reference_externals)
           (world obj_and_glb_fail) "male" "/data/photo_male_avatar.obj" None None None
           ∅ triangle [(0, 1, 2)%nat]);
    try reflexivity.
  discriminate.
Defined.

(** That run returns the OBJ path although no file exists there. *)
Example failed_obj_run :
  let run :=
    fit_smplx_to_landmarks (E := reference_externals) (world obj_and_glb_fail) "male"
      "/data/photo_male_avatar.obj" None None None ∅ in
  fst run = Ok "/data/photo_male_avatar.obj"
  /\ path_exists (snd run) "/data/photo_male_avatar.obj" = false
  /\ path_exists (snd run) "/data/photo_male_avatar.mtl" = true
  /\ path_exists (snd run) "/data/photo_male.png" = true.
Proof. vm_compute. repeat split; reflexivity. Qed.

End Runs.

(* ================================================================== *)
(** * Part II, continued: further properties of the code *)
(* ================================================================== *)

Lemma ok_inj {A : Type} (a b : A) : Ok a = Ok b -> a = b.
Proof. congruence. Qed.

(** ** Body measurements *)

Section MeasureExtras.

Import Measure.

(** X3. Only the shoulders, hips and ankles are read: two poses that
    agree at the indices 11, 12, 23, 24, 27 and 28 give the same answer,
    measurements or exception, though the index table also lists elbows,
    wrists and knees. *)
Theorem measurements_read_six_joints
    {F : Type} `{FloatOps F} (a b : list (landmark F)) (size : Z * Z) :
  Forall (fun i => a !! i = b !! i) [11; 12; 23; 24; 27; 28]%nat ->
  estimate_body_measurements a size = estimate_body_measurements b size.
Proof.
  intros Hsame.
  repeat match goal with
  | Hs : Forall _ (_ :: _) |- _ => apply Forall_cons_1 in Hs as [? Hs]
  end.
  unfold estimate_body_measurements, get_xy, getitem,
    left_shoulder, right_shoulder, left_hip, right_hip, left_ankle, right_ankle.
  repeat match goal with
  | Hi : a !! _ = b !! _ |- _ => rewrite Hi; clear Hi
  end.
  reflexivity.
Qed.

(** Two poses that differ at the elbows (13, 14) and the knees (25, 26). *)
Lemma measurements_read_six_joints_witness :
  estimate_body_measurements
    (<[13%nat := Landmark 1%R 1%R]> (<[25%nat := Landmark 1%R 1%R]>
       (scenario_pose ratio (Landmark 0%R 0%R)))) (1000, 1000)
  = estimate_body_measurements (scenario_pose ratio (Landmark 0%R 0%R)) (1000, 1000).
Proof.
  apply (measurements_read_six_joints
           (<[13%nat := Landmark 1%R 1%R]> (<[25%nat := Landmark 1%R 1%R]>
              (scenario_pose ratio (Landmark 0%R 0%R))))
           (scenario_pose ratio (Landmark 0%R 0%R)) (1000, 1000)).
  repeat constructor.
Defined.




End MeasureExtras.

(** ** Colour sampling *)

Section ColorExtras.

Import ImageUtils.

Lemma sample_colors_in_image (image : raster) (r : Z) (pts : list (Z * Z)) (c : Z * Z * Z) :
  c ∈ sample_colors image r pts ->
  exists nx ny, 0 <= nx < shape_w image /\ 0 <= ny < shape_h image
                /\ c = at_ image ny nx.
Proof.
  unfold sample_colors. intros Hc.
  apply list_elem_of_bind in Hc as (p & Hc & _).
  apply list_elem_of_bind in Hc as (dx & Hc & _).
  apply list_elem_of_bind in Hc as (dy & Hc & _).
  cbn zeta in Hc.
  destruct ((0 <=? p.1 + dx) && (p.1 + dx <? shape_w image)
            && (0 <=? p.2 + dy) && (p.2 + dy <? shape_h image)) eqn:Hin.
  - apply list_elem_of_singleton in Hc as ->.
    exists (p.1 + dx), (p.2 + dy).
    rewrite !andb_true_iff, !Z.leb_le, !Z.ltb_lt in Hin.
    repeat split; lia.
  - now apply elem_of_nil in Hc.
Qed.

Lemma mean_channel_within (hi : Z) (f : Z * Z * Z -> Z) (colors : list (Z * Z * Z)) :
  colors <> [] ->
  Forall (fun c => 0 <= f c <= hi) colors ->
  0 <= Z.quot (foldr Z.add 0 (map f colors)) (Z.of_nat (length colors)) <= hi.
Proof.
  intros Hne Hall.
  assert (0 <= foldr Z.add 0 (map f colors) <= hi * Z.of_nat (length colors)) as Hsum.
  { clear Hne. induction Hall as [|c cs Hc Hcs IH]; cbn [map foldr length]; [lia|].
    rewrite Nat2Z.inj_succ. lia. }
  assert (0 < Z.of_nat (length colors)) as Hn by (destruct colors; [congruence|cbn; lia]).
  rewrite Z.quot_div_nonneg by lia.
  split.
  - apply Z.div_pos; lia.
  - apply Z.div_le_upper_bound; lia.
Qed.

Lemma average_within (hi : Z) (colors : list (Z * Z * Z)) (c : Z * Z * Z) :
  Forall (channels_within hi) colors ->
  average colors = Some c -> channels_within hi c.
Proof.
  intros Hall. unfold average.
  destruct colors as [|c0 cs] eqn:Hcs; [discriminate|]. rewrite <- Hcs in *.
  intros [= <-]. unfold mean_color, channels_within. cbn [fst snd].
  assert (colors <> []) as Hne by (rewrite Hcs; discriminate).
  split; [|split]; apply mean_channel_within; try exact Hne;
    (eapply Forall_impl; [exact Hall|]); intros x Hx; apply Hx.
Qed.

Lemma sampled_within (hi : Z) (image : raster) (r : Z) (pts : list (Z * Z)) (c : Z * Z * Z) :
  raster_within hi image ->
  average (sample_colors image r pts) = Some c -> channels_within hi c.
Proof.
  intros Himg. apply average_within, Forall_forall. intros x Hx.
  destruct (sample_colors_in_image image r pts x Hx) as (nx & ny & Hnx & Hny & ->).
  now apply Himg.
Qed.

Lemma skin_color_within (s : scene) (c : Z * Z * Z) :
  (forall image, cv2_imread s = Some image -> raster_within 255 image) ->
  extract_skin_color s = Ok (Some c) -> channels_within 255 c.
Proof.
  intros Himg. unfold extract_skin_color, image_shape.
  destruct (extract_face_landmarks s) as [coords|].
  - destruct (cv2_imread s) as [image|]; [|discriminate].
    specialize (Himg image eq_refl). cbn [bind].
    destruct (getitem coords 234) as [p0|]; [|discriminate].
    destruct (getitem coords 454) as [p1|]; [|discriminate]. cbn [bind].
    intros Hc%ok_inj. exact (sampled_within 255 image _ _ c Himg Hc).
  - intros [= <-]. unfold channels_within, default_skin_tone. cbn. lia.
Qed.

Lemma eye_color_within (s : scene) (c : Z * Z * Z) :
  (forall image, cv2_imread s = Some image -> raster_within 255 image) ->
  extract_eye_color s = Ok (Some c) -> channels_within 255 c.
Proof.
  intros Himg. unfold extract_eye_color, image_shape.
  destruct (extract_face_landmarks s) as [coords|]; [|discriminate].
  destruct (cv2_imread s) as [image|]; [|discriminate].
  specialize (Himg image eq_refl). cbn [bind].
  destruct (Nat.ltb _ _).
  - destruct (getitem coords 474) as [p0|]; [|discriminate].
    destruct (getitem coords 469) as [p1|]; [|discriminate]. cbn [bind].
    intros Hc%ok_inj. exact (sampled_within 255 image _ _ c Himg Hc).
  - cbn [bind]. intros Hc%ok_inj. exact (sampled_within 255 image _ _ c Himg Hc).
Qed.

(** X5. When every pixel of the decoded picture has its channels between
    0 and 255, every colour a face analysis returns, skin or eye, sampled
    or default, has its channels between 0 and 255. *)
Theorem sampled_colors_stay_in_range (s : scene) (sample : color_sample) :
  (forall image, cv2_imread s = Some image -> raster_within 255 image) ->
  analyze_face s = Ok sample ->
  (forall c, skin_color sample = Some c -> channels_within 255 c)
  /\ (forall c, eye_color sample = Some c -> channels_within 255 c).
Proof.
  intros Himg. unfold analyze_face.
  destruct (extract_skin_color s) as [skin|] eqn:Hskin; [|discriminate].
  destruct (extract_eye_color s) as [eye|] eqn:Heye; [|discriminate].
  cbn [bind]. intros [= <-]. cbn [skin_color eye_color].
  split; intros c ->.
  - now apply (skin_color_within s c Himg).
  - now apply (eye_color_within s c Himg).
Qed.

Lemma sampled_colors_stay_in_range_witness :
  (forall c, skin_color (ColorSample (Some (200, 120, 90)) (Some (200, 120, 90))) = Some c ->
             channels_within 255 c)
  /\ (forall c, eye_color (ColorSample (Some (200, 120, 90)) (Some (200, 120, 90))) = Some c ->
                channels_within 255 c).
Proof.
  apply (sampled_colors_stay_in_range portrait
           (ColorSample (Some (200, 120, 90)) (Some (200, 120, 90)))).
  - intros image [= <-] nx ny _ _. unfold channels_within. cbn. lia.
  - vm_compute. reflexivity.
Defined.

(** X6. With landmarks but fewer than 455 of them, as in the box-corner
    tier, skin sampling never returns a colour: it raises, [IndexError]
    when [cv2] could read the picture, and so does the face analysis. *)
Theorem skin_sampling_needs_455_landmarks (s : scene) (coords : list (Z * Z)) :
  extract_face_landmarks s = Some coords ->
  (length coords <= 454)%nat ->
  exists e, extract_skin_color s = Raise e
            /\ analyze_face s = Raise e
            /\ (is_Some (cv2_imread s) -> e = IndexError).
Proof.
  intros Hc Hlen. unfold analyze_face, extract_skin_color, image_shape. rewrite Hc.
  destruct (cv2_imread s) as [image|]; cbn [bind].
  - exists IndexError. unfold getitem.
    destruct (coords !! 234%nat); cbn [bind];
      rewrite ?(proj2 (lookup_ge_None coords 454) Hlen); cbn; auto.
  - exists AttributeError. repeat split; auto. intros [? [=]].
Qed.

Lemma skin_sampling_needs_455_landmarks_witness :
  exists e, extract_skin_color boxed_face = Raise e
            /\ analyze_face boxed_face = Raise e
            /\ (is_Some (cv2_imread boxed_face) -> e = IndexError).
Proof.
  apply (skin_sampling_needs_455_landmarks boxed_face
           [(160, 120); (480, 120); (480, 360); (160, 360)]).
  - vm_compute. reflexivity.
  - cbn. lia.
Defined.

(** X7. With at most 33 landmarks, as in the box-corner tier, no iris
    index and no fallback index is in range, and the eye colour of a
    readable picture is absent. *)
Theorem eye_color_needs_34_landmarks (s : scene) (coords : list (Z * Z)) :
  extract_face_landmarks s = Some coords ->
  (length coords <= 33)%nat ->
  is_Some (cv2_imread s) ->
  extract_eye_color s = Ok None.
Proof.
  intros Hc Hlen [image Himg]. unfold extract_eye_color, image_shape.
  rewrite Hc, Himg. cbn [bind].
  destruct (Nat.ltb_spec (Nat.max 474 469) (length coords)) as [Hbig|_];
    [cbn in Hbig; lia|].
  assert (omap (fun idx => coords !! idx) fallback_indices = []) as ->.
  { unfold fallback_indices. cbn [omap list_omap].
    rewrite !(fun i Hi => proj2 (lookup_ge_None coords i) Hi) by lia. reflexivity. }
  reflexivity.
Qed.

Lemma eye_color_needs_34_landmarks_witness :
  extract_eye_color boxed_face = Ok None.
Proof.
  apply (eye_color_needs_34_landmarks boxed_face
           [(160, 120); (480, 120); (480, 360); (160, 360)]).
  - vm_compute. reflexivity.
  - cbn. lia.
  - cbn. eauto.
Defined.

End ColorExtras.

(** ** The texture *)

Section TextureExtras.

Import AvatarUtils.

Context `{E : Externals}.

Lemma alpha_opaque (c : Z * Z * Z) : alpha (opaque c) = 255.
Proof. now destruct c as [[r g] b]. Qed.

Lemma face_layer_finished (env : environment) (fs : gmap string file)
    (image_path : option string) :
  exists t, face_layer env fs image_path base_layer = Frame [t] 0 0 /\ finished t.
Proof.
  assert (finished (new RGB texture_size texture_size (opaque fill_color))) as Hbase
    by (repeat split).
  unfold face_layer, base_layer.
  destruct image_path as [path|]; [|eauto].
  destruct (path_exists fs path); [|eauto].
  destruct (ImageUtils.detect_faces _) as [[|box boxes]|e]; eauto.
  destruct (ImageUtils.crop_face _) as [face_img|]; [|eauto].
  destruct (ImageUtils.extract_face_landmarks _) as [[|lm lms]|]; eauto.
  eexists. split; [reflexivity|].
  repeat split. intros x y. cbn.
  destruct (inside _ _ _); [apply alpha_opaque|reflexivity].
Qed.

Lemma garment_layer_finished (env : environment) (fs : gmap string file)
    (gender : string) (t : image) :
  finished t ->
  exists h n, garment_layer env fs gender (Frame [t] 0 0) = Frame h n 0
              /\ h !! 0%nat = Some t
              /\ finished (h !!! n).
Proof.
  intros Ht. pose proof Ht as (Hm & Hw & Hh & Ha).
  destruct (outfit_path env fs gender) as [path|] eqn:Hpath.
  - destruct (open_image env path) as [outfit|e] eqn:Hopen.
    + unfold garment_layer. rewrite Hpath, Hopen. unfold alloc.
      cbn [heap texture_img draw length app].
      change ([t] !!! 0%nat) with t.
      change ([t; convert RGBA t] !!! 1%nat) with (convert RGBA t).
      rewrite (alpha_composite_same_size t outfit Hw Hh).
      cbn [heap texture_img draw length app].
      do 2 eexists. split; [reflexivity|]. split; [reflexivity|].
      repeat split. intros x y. cbn. apply alpha_opaque.
    + exists [t], 0%nat. unfold garment_layer. rewrite Hpath, Hopen. auto.
  - exists [t], 0%nat. unfold garment_layer. rewrite Hpath. auto.
Qed.

Lemma draw_ellipse_finished (box : Z * Z * Z * Z) (c : Z * Z * Z) (t : image) :
  finished t -> finished (draw_ellipse box (opaque c) t).
Proof.
  intros (Hm & Hw & Hh & Ha). repeat split; try assumption.
  intros x y. cbn. destruct (ellipse_covers box x y); [apply alpha_opaque|apply Ha].
Qed.

(** X8. Whatever the photograph, the garment asset and the eye colour,
    the texture that is saved is an RGB picture of 512 x 512 pixels, and
    every pixel of it is opaque. *)
Theorem saved_texture_is_opaque_rgb_512
    (env : environment) (fs : gmap string file) (gender : string)
    (image_path : option string) (eye_color : option (Z * Z * Z)) :
  let t := saved_texture (compose_texture env fs gender image_path eye_color) in
  im_mode t = RGB /\ im_width t = 512 /\ im_height t = 512
  /\ forall x y, alpha (pixel t x y) = 255.
Proof.
  cbn zeta. unfold compose_texture.
  destruct (face_layer_finished env fs image_path) as (t & -> & Ht).
  destruct (garment_layer_finished env fs gender t Ht) as (h & n & -> & H0 & Hn).
  unfold eye_layer, saved_texture.
  destruct eye_color as [c|]; cbn [heap texture_img draw]; [|exact Hn].
  destruct (decide (n = 0%nat)) as [->|Hne].
  - rewrite list_lookup_total_alter_eq by (eapply lookup_lt_Some; exact H0).
    rewrite (list_lookup_total_correct h 0 t H0).
    cbn zeta.
    exact (draw_ellipse_finished _ c _ (draw_ellipse_finished _ c t Ht)).
  - rewrite list_lookup_total_alter_ne by congruence. exact Hn.
Qed.

(** X9. The face stage changes the texture only inside the square of
    143 x 143 pixels whose corner is (185, 92): every pixel outside it
    keeps the fill colour (10, 10, 10), whatever the photograph shows. *)
Theorem face_crop_stays_in_its_square
    (env : environment) (fs : gmap string file) (image_path : option string)
    (x y : Z) :
  ~ (185 <= x < 328 /\ 92 <= y < 235) ->
  pixel (saved_texture (face_layer env fs image_path base_layer)) x y = (10, 10, 10, 255).
Proof.
  intros Hout. unfold face_layer, base_layer, saved_texture.
  destruct image_path as [path|]; [|reflexivity].
  destruct (path_exists fs path); [|reflexivity].
  destruct (ImageUtils.detect_faces _) as [[|box boxes]|e]; try reflexivity.
  destruct (ImageUtils.crop_face _) as [face_img|]; [|reflexivity].
  destruct (ImageUtils.extract_face_landmarks _) as [[|lm lms]|]; try reflexivity.
  cbn.
  match goal with |- (if ?b then _ else _) = _ => destruct b eqn:Hin end; [|reflexivity].
  exfalso. apply Hout. unfold inside in Hin. cbn in Hin.
  change (fraction texture_size 50) with 256 in Hin.
  change (fraction texture_size 32) with 163 in Hin.
  change (fraction texture_size 28) with 143 in Hin.
  change (143 `div` 2) with 71 in Hin.
  rewrite !andb_true_iff, !Z.leb_le, !Z.ltb_lt in Hin. lia.
Qed.

Lemma first_existing_spec (fs : gmap string file) (base : string) (exts : list string) :
  match first_existing fs base exts with
  | Some p =>
      exists before ext after,
        exts = before ++ ext :: after /\ p = base +:+ ext
        /\ path_exists fs p = true
        /\ Forall (fun e => path_exists fs (base +:+ e) = false) before
  | None => Forall (fun e => path_exists fs (base +:+ e) = false) exts
  end.
Proof.
  induction exts as [|ext exts IH]; cbn [first_existing]; [constructor|].
  destruct (path_exists fs (base +:+ ext)) eqn:Hex.
  - exists [], ext, exts. repeat split; auto.
  - destruct (first_existing fs base exts) as [p|].
    + destruct IH as (before & e & after & -> & -> & Hp & Hb).
      exists (ext :: before), e, after. repeat split; auto.
    + now constructor.
Qed.

(** X10. The garment lookup answers only a file that exists, only for
    the genders male and female, and prefers [.png] to [.jpg] to [.jpeg];
    it answers nothing exactly when the gender is another one or none of
    the three files exists. *)
Theorem outfit_lookup_prefers_png_and_finds_only_existing_files
    (env : environment) (fs : gmap string file) (gender : string) :
  match outfit_path env fs gender with
  | Some p =>
      path_exists fs p = true
      /\ (gender = "male" \/ gender = "female")
      /\ exists base,
           outfit_base env gender = Some base
           /\ (p = base +:+ ".png"
               \/ (p = base +:+ ".jpg" /\ path_exists fs (base +:+ ".png") = false)
               \/ (p = base +:+ ".jpeg" /\ path_exists fs (base +:+ ".png") = false
                   /\ path_exists fs (base +:+ ".jpg") = false))
  | None =>
      (gender <> "male" /\ gender <> "female")
      \/ exists base,
           outfit_base env gender = Some base
           /\ path_exists fs (base +:+ ".png") = false
           /\ path_exists fs (base +:+ ".jpg") = false
           /\ path_exists fs (base +:+ ".jpeg") = false
  end.
Proof.
  unfold outfit_path.
  assert (forall base, outfit_base env gender = Some base ->
                       gender = "male" \/ gender = "female") as Hg.
  { unfold outfit_base. intros base.
    destruct (String.eqb_spec gender "male"); [auto|].
    destruct (String.eqb_spec gender "female"); [auto|discriminate]. }
  destruct (outfit_base env gender) as [base|] eqn:Hbase.
  - pose proof (first_existing_spec fs base [".png"; ".jpg"; ".jpeg"]) as Hspec.
    destruct (first_existing fs base _) as [p|].
    + destruct Hspec as (before & ext & after & Hsplit & -> & Hp & Hb).
      split; [exact Hp|]. split; [now apply (Hg base)|].
      exists base. split; [reflexivity|].
      destruct before as [|b0 [|b1 [|b2 before]]]; injection Hsplit as <-;
        try (repeat match goal with H : _ :: _ = _ |- _ => injection H as <- end);
        repeat match goal with H : Forall _ (_ :: _) |- _ => apply Forall_cons_1 in H as [? H] end.
      * auto.
      * subst. auto.
      * subst. auto 6.
      * destruct before; discriminate.
    + right. exists base. split; [reflexivity|].
      repeat match goal with H : Forall _ (_ :: _) |- _ => apply Forall_cons_1 in H as [? H] end.
      auto.
  - left. unfold outfit_base in Hbase.
    destruct (String.eqb_spec gender "male"); [discriminate|].
    destruct (String.eqb_spec gender "female"); [discriminate|]. auto.
Qed.

Lemma lookup_remove_if_exists (q p : string) (fs : gmap string file) :
  remove_if_exists q fs !! p = if decide (p = q) then None else fs !! p.
Proof.
  unfold remove_if_exists, path_exists.
  destruct (fs !! q) eqn:Hq.
  - destruct (decide (p = q)) as [->|Hne].
    + apply lookup_delete_eq.
    + now apply lookup_delete_ne.
  - destruct (decide (p = q)) as [->|Hne]; [exact Hq|reflexivity].
Qed.

(** X11. Removing the previous outputs deletes the files named
    [<stem>.obj], [<stem>.mtl] and [<stem>.png] beside [out_path], where
    [<stem>] is the base name of [out_path] without its extension, and
    leaves every other file as it was. *)
Theorem purge_removes_three_files_and_nothing_else
    (out_path p : string) (fs : gmap string file) :
  purge out_path fs !! p
  = if decide (p ∈ purge_targets out_path) then None else fs !! p.
Proof.
  unfold purge, purge_targets. cbn [foldl map].
  rewrite !lookup_remove_if_exists.
  destruct (decide (p ∈ _)) as [Hin|Hnot].
  - repeat (apply elem_of_cons in Hin as [->|Hin]);
      [| | |now apply elem_of_nil in Hin];
      repeat (match goal with
              | |- context [decide (?a = ?b)] => destruct (decide (a = b))
              end; try reflexivity; try congruence).
  - repeat (apply not_elem_of_cons in Hnot as [? Hnot]).
    now rewrite !decide_False by assumption.
Qed.


End TextureExtras.

Lemma face_crop_stays_in_its_square_witness :
  pixel (AvatarUtils.saved_texture
           (AvatarUtils.face_layer (E := AvatarUtils.reference_externals) studio
              with_photo_and_outfit (Some "/data/photo.jpg") AvatarUtils.base_layer))
        0 0
  = (10, 10, 10, 255).
Proof.
  apply (face_crop_stays_in_its_square (E := AvatarUtils.reference_externals)
           studio with_photo_and_outfit (Some "/data/photo.jpg") 0 0).
  lia.
Defined.


(** ** UV coordinates off flat meshes *)

Section UvExtras.

Import AvatarUtils.

Lemma qmin_le_l (a b : Q) : (qmin a b <= a)%Q.
Proof.
  unfold qmin. destruct (Qle_bool a b) eqn:Hab; [apply Qle_refl|].
  destruct (Qlt_le_dec b a) as [Hlt|Hle]; [now apply Qlt_le_weak|].
  apply Qle_bool_iff in Hle. congruence.
Qed.

Lemma qmin_le_r (a b : Q) : (qmin a b <= b)%Q.
Proof.
  unfold qmin. destruct (Qle_bool a b) eqn:Hab; [now apply Qle_bool_iff|apply Qle_refl].
Qed.

Lemma qmax_ge_l (a b : Q) : (a <= qmax a b)%Q.
Proof.
  unfold qmax. destruct (Qle_bool a b) eqn:Hab; [now apply Qle_bool_iff|apply Qle_refl].
Qed.

Lemma qmax_ge_r (a b : Q) : (b <= qmax a b)%Q.
Proof.
  unfold qmax. destruct (Qle_bool a b) eqn:Hab; [apply Qle_refl|].
  destruct (Qlt_le_dec b a) as [Hlt|Hle]; [now apply Qlt_le_weak|].
  apply Qle_bool_iff in Hle. congruence.
Qed.

Lemma foldl_qmin_lower (l : list Q) :
  forall a, (foldl qmin a l <= a)%Q /\ Forall (fun x => foldl qmin a l <= x)%Q l.
Proof.
  induction l as [|x l IH]; intros a; cbn [foldl]; [split; [apply Qle_refl|constructor]|].
  destruct (IH (qmin a x)) as [Hm Hall]. split.
  - eapply Qle_trans; [exact Hm|apply qmin_le_l].
  - constructor; [|exact Hall].
    eapply Qle_trans; [exact Hm|apply qmin_le_r].
Qed.

Lemma foldl_qmax_upper (l : list Q) :
  forall a, (a <= foldl qmax a l)%Q /\ Forall (fun x => x <= foldl qmax a l)%Q l.
Proof.
  induction l as [|x l IH]; intros a; cbn [foldl]; [split; [apply Qle_refl|constructor]|].
  destruct (IH (qmax a x)) as [Hm Hall]. split.
  - eapply Qle_trans; [apply qmax_ge_l|exact Hm].
  - constructor; [|exact Hall].
    eapply Qle_trans; [apply qmax_ge_r|exact Hm].
Qed.

Lemma np_divide_unit (a d : Q) :
  (0 <= a)%Q -> (a <= d)%Q -> ~ (d == 0)%Q -> in_unit_interval (np_divide a d).
Proof.
  intros Ha Had Hd. unfold np_divide.
  destruct (Qeq_bool d 0) eqn:Hz; [apply Qeq_bool_iff in Hz; contradiction|].
  cbn. assert (0 < d)%Q as Hpos.
  { assert (0 <= d)%Q as H0 by (now apply Qle_trans with a).
    apply Qle_lteq in H0 as [H0|H0]; [exact H0|].
    exfalso. apply Hd. now symmetry. }
  split.
  - apply Qle_shift_div_l; [exact Hpos|]. now rewrite Qmult_0_l.
  - apply Qle_shift_div_r; [exact Hpos|]. now rewrite Qmult_1_l.
Qed.

Lemma normalise_column_unit (xs : list Q) (d : Q) :
  uv_divisor xs = Ok d -> ~ (d == 0)%Q ->
  exists col, normalise_column xs = Ok col
              /\ length col = length xs
              /\ Forall in_unit_interval col.
Proof.
  destruct xs as [|x r]; [discriminate|].
  unfold uv_divisor, normalise_column. cbn [np_min np_max bind].
  intros Hd%ok_inj Hnz. subst d.
  eexists. split; [reflexivity|]. split; [now rewrite length_map|].
  destruct (foldl_qmin_lower r x) as [Hlo Hlos].
  destruct (foldl_qmax_upper r x) as [Hhi Hhis].
  apply Forall_map, Forall_forall. intros y Hy.
  assert (foldl qmin x r <= y /\ y <= foldl qmax x r)%Q as [Hly Hyh].
  { apply elem_of_cons in Hy as [->|Hy]; [auto|].
    split; [exact (proj1 (Forall_forall _ _) Hlos y Hy)
           |exact (proj1 (Forall_forall _ _) Hhis y Hy)]. }
  apply np_divide_unit; [| |exact Hnz].
  - now apply (Qplus_le_l _ _ (foldl qmin x r)); ring_simplify.
  - now apply (Qplus_le_l _ _ (foldl qmin x r)); ring_simplify.
Qed.

Lemma Forall_zip_both {A B : Type} (P : A -> Prop) (R : B -> Prop)
    (l : list A) (k : list B) :
  Forall P l -> Forall R k -> Forall (fun p => P (fst p) /\ R (snd p)) (zip l k).
Proof.
  intros Hl. revert k. induction Hl as [|a l Ha Hl IH]; intros k Hk; [constructor|].
  destruct Hk as [|b k Hb Hk]; cbn; constructor; auto.
Qed.

(** X13. When the vertices differ in [x] and differ in [y] (both
    divisors are non-zero) and neither range exceeds the largest finite
    binary32 number (so that no subtraction overflows, in float32 as in
    float64), the planar mapping succeeds, gives one pair for every
    vertex, and both coordinates of every pair are numbers between 0 and
    1. *)
Theorem planar_uv_stays_in_the_unit_square (vs : list vertex) (dx dy : Q) :
  uv_divisor (map vx vs) = Ok dx -> ~ (dx == 0)%Q -> (dx <= float32_max)%Q ->
  uv_divisor (map vy vs) = Ok dy -> ~ (dy == 0)%Q -> (dy <= float32_max)%Q ->
  exists uv,
    planar_uv vs = Ok uv
    /\ length uv = length vs
    /\ Forall (fun p => in_unit_interval (fst p) /\ in_unit_interval (snd p)) uv.
Proof.
  intros Hdx Hx _ Hdy Hy _.
  destruct (normalise_column_unit _ dx Hdx Hx) as (us & Hus & Hlu & Hu).
  destruct (normalise_column_unit _ dy Hdy Hy) as (ws & Hws & Hlw & Hw).
  unfold planar_uv. rewrite Hus, Hws. cbn [bind].
  eexists. split; [reflexivity|]. split.
  - rewrite length_zip_with, Hlu, Hlw, !length_map. lia.
  - now apply Forall_zip_both.
Qed.

Lemma planar_uv_stays_in_the_unit_square_witness :
  exists uv,
    planar_uv triangle = Ok uv
    /\ length uv = length triangle
    /\ Forall (fun p => in_unit_interval (fst p) /\ in_unit_interval (snd p)) uv.
Proof.
  apply (planar_uv_stays_in_the_unit_square triangle (1 - 0)%Q (2 - 0)%Q).
  - reflexivity.
  - intros Hq. vm_compute in Hq. discriminate.
  - vm_compute. discriminate.
  - reflexivity.
  - intros Hq. vm_compute in Hq. discriminate.
  - vm_compute. discriminate.
Defined.

Section Template.
Context `{E : Externals}.



End Template.


End UvExtras.

(** ** The silhouettes *)

Section SilhouetteExtras.

Import AvatarUtils Silhouette.

Context `{E : Externals} `{B : Brushes}.

(** X15. The silhouette of [avatar_utils.py] shows neither landmarks nor
    caption: the picture that is saved is the composite of the pasted
    mask and the tint, the same for every list of landmarks and with or
    without the font; the dots and the text are drawn on the first image
    object, which the composite replaced. *)
Theorem silhouette_ignores_landmarks
    (font_found font_found' : bool) (landmarks landmarks' : list (Q * Q)) (m : mask) :
  exists c c',
    Silhouette.generate_avatar_silhouette font_found landmarks m = Ok c
    /\ Silhouette.generate_avatar_silhouette font_found' landmarks' m = Ok c'
    /\ saved c = saved c'
    /\ forall x y,
         pixel (saved c) x y
         = blend (pixel (pasted_mask m) x y)
                 (let '(r, g, b) := avg_color m in (r, g, b, 80)).
Proof.
  unfold Silhouette.generate_avatar_silhouette.
  destruct (avg_color m) as [[r g] b].
  unfold alpha_composite, pasted_mask, new. cbn [im_mode im_width im_height pixel].
  rewrite !Z.eqb_refl. cbn [andb bind].
  do 2 eexists. split; [reflexivity|]. split; [reflexivity|].
  split; [reflexivity|]. intros x y. reflexivity.
Qed.

Lemma draw_dots_snoc (r : Z) (fill : rgba) (cs : list (Z * Z)) (c : Z * Z) (im : image) :
  draw_dots r fill (cs ++ [c]) im = draw_ellipse (dot r c) fill (draw_dots r fill cs im).
Proof. unfold draw_dots. now rewrite foldl_app. Qed.

Lemma draw_dots_covered (r : Z) (fill : rgba) (cs : list (Z * Z)) (im : image) (x y : Z) :
  pixel (draw_dots r fill cs im) x y
  = if existsb (fun c => ellipse_covers (dot r c) x y) cs then fill else pixel im x y.
Proof.
  induction cs as [|c cs IH] using rev_ind; [reflexivity|].
  rewrite draw_dots_snoc. cbn [draw_ellipse pixel].
  rewrite existsb_app. cbn [existsb]. rewrite orb_false_r.
  destruct (ellipse_covers (dot r c) x y); [now rewrite orb_true_r|].
  now rewrite orb_false_r.
Qed.

(** X16. The silhouette of [workerrun.py] does show the landmarks: every
    pixel that the dot of radius 3 around a landmark covers is green,
    (0, 255, 0, 128), in the saved picture, whatever was drawn before or
    after. *)
Theorem silhouette_2d_shows_every_landmark (landmarks : list (Q * Q)) (m : mask)
    (lm : Q * Q) (x y : Z) :
  lm ∈ landmarks ->
  ellipse_covers (dot 3 (centre m lm)) x y = true ->
  pixel (saved (WorkerRun.generate_avatar_silhouette landmarks m)) x y = (0, 255, 0, 128).
Proof.
  intros Hin Hcov. unfold WorkerRun.generate_avatar_silhouette, saved.
  cbn [objects avatar].
  change ([?a] !!! 0%nat) with a.
  rewrite draw_dots_covered.
  assert (existsb (fun c => ellipse_covers (dot 3 c) x y) (map (centre m) landmarks) = true) as ->.
  { apply existsb_exists. exists (centre m lm). split; [|exact Hcov].
    apply in_map. now apply list_elem_of_In. }
  reflexivity.
Qed.

End SilhouetteExtras.

Lemma silhouette_2d_shows_every_landmark_witness :
  pixel (Silhouette.saved
           (WorkerRun.generate_avatar_silhouette (E := AvatarUtils.reference_externals)
              (B := reference_brushes) [(1 # 4, 1 # 4); (1 # 2, 1 # 2)] half_mask))
        51 49
  = (0, 255, 0, 128).
Proof.
  apply (silhouette_2d_shows_every_landmark (E := AvatarUtils.reference_externals)
           (B := reference_brushes) [(1 # 4, 1 # 4); (1 # 2, 1 # 2)] half_mask
           (1 # 2, 1 # 2) 51 49).
  - apply list_elem_of_further, list_elem_of_here.
  - vm_compute. reflexivity.
Defined.

(** ** The worker's tasks *)

Section PathExtras.

Lemma append_nil_r (s : string) : s +:+ EmptyString = s.
Proof.
  induction s as [|c s IH]; [reflexivity|].
  change (String c (s +:+ EmptyString) = String c s). now rewrite IH.
Qed.

Lemma rfind_from_app (c : ascii) (a b : string) :
  forall i last,
    Str.rfind_from c (a +:+ b) i last
    = Str.rfind_from c b (i + Z.of_nat (String.length a)) (Str.rfind_from c a i last).
Proof.
  induction a as [|x a IH]; intros i last.
  - cbn. now rewrite Z.add_0_r.
  - change (String x a +:+ b) with (String x (a +:+ b)).
    cbn [Str.rfind_from String.length]. rewrite IH. f_equal. lia.
Qed.

Lemma rfind_from_absent (c : ascii) (s : string) :
  forall i last, Str.mem c s = false -> Str.rfind_from c s i last = last.
Proof.
  induction s as [|x s IH]; intros i last Hmem; [reflexivity|].
  cbn [Str.mem] in Hmem. apply orb_false_elim in Hmem as [Hx Hs].
  cbn [Str.rfind_from]. rewrite Hx. now apply IH.
Qed.

Lemma drop_app (a b : string) : Str.drop (String.length a) (a +:+ b) = b.
Proof. induction a as [|x a IH]; [reflexivity|exact IH]. Qed.

Lemma length_append (a b : string) :
  String.length (a +:+ b) = (String.length a + String.length b)%nat.
Proof.
  induction a as [|x a IH]; [reflexivity|].
  change (String x a +:+ b) with (String x (a +:+ b)). cbn [String.length].
  now rewrite IH.
Qed.

(** The base name of [d/name] is [name]. *)
Lemma basename_of_joined (d name : string) :
  Str.mem Str.sep name = false ->
  Str.basename (d +:+ String Str.sep name) = name.
Proof.
  intros Hname. unfold Str.basename, Str.rfind.
  rewrite rfind_from_app. cbn [Str.rfind_from]. rewrite Ascii.eqb_refl.
  rewrite (rfind_from_absent _ _ _ _ Hname).
  replace (Z.to_nat (0 + Z.of_nat (String.length d) + 1))
    with (String.length (d +:+ String Str.sep EmptyString)).
  - change (d +:+ String Str.sep name)
      with (d +:+ (String Str.sep EmptyString +:+ name)).
    rewrite <- (append_assoc d (String Str.sep EmptyString) name).
    apply drop_app.
  - rewrite length_append. cbn [String.length]. lia.
Qed.

(** X17. The task answers the file name of the model: for a reply whose
    [obj_path] is [d/name], with no separator in [name], it returns
    [name]; for a reply whose [obj_path] is [None] or missing (the error
    reply) it returns the empty string. *)
Theorem task_returns_the_file_name
    (result : gmap string (option string)) (d name : string) :
  Str.mem "/" name = false ->
  Tasks.generate_avatar_task (<["obj_path" := Some (d +:+ "/" +:+ name)]> result) = name
  /\ Tasks.generate_avatar_task (<["obj_path" := None]> result) = EmptyString
  /\ Tasks.generate_avatar_task (delete "obj_path" result) = EmptyString.
Proof.
  intros Hname. unfold Tasks.generate_avatar_task.
  rewrite !lookup_insert_eq, lookup_delete_eq. cbn [default].
  split; [|split; reflexivity].
  now apply basename_of_joined.
Qed.

Lemma task_returns_the_file_name_witness :
  Tasks.generate_avatar_task
    (<["obj_path" := Some ("/data" +:+ "/" +:+ "photo_male_avatar.glb")]> ∅)
  = "photo_male_avatar.glb"
  /\ Tasks.generate_avatar_task (<["obj_path" := None]> ∅) = EmptyString
  /\ Tasks.generate_avatar_task (delete "obj_path" ∅) = EmptyString.
Proof.
  apply (task_returns_the_file_name ∅ "/data" "photo_male_avatar.glb").
  reflexivity.
Defined.

End PathExtras.

Section WorkerExtras.

Import ImageUtils AvatarUtils Silhouette WorkerRun.

(** After the first substitution the later two run over the suffix. *)
Lemma swap_extension_rescans (sfx stem : string) :
  Str.mem "." stem = false ->
  swap_extension sfx (stem +:+ ".jpg")
  = stem +:+ Str.replace_from ".png" sfx 0 (Str.replace_from ".jpeg" sfx 0 sfx)
  /\ swap_extension sfx (stem +:+ ".jpeg")
     = stem +:+ Str.replace_from ".png" sfx 0 sfx
  /\ swap_extension sfx (stem +:+ ".png") = stem +:+ sfx.
Proof.
  intros Hdot. unfold swap_extension, Str.replace.
  repeat split.
  - rewrite (replace_from_skips _ _ stem _ Hdot).
    change (Str.replace_from ".jpg" sfx 0 ".jpg") with (sfx +:+ EmptyString).
    rewrite append_nil_r.
    rewrite (replace_from_skips _ _ stem _ Hdot).
    now rewrite (replace_from_skips _ _ stem _ Hdot).
  - rewrite (replace_from_skips _ _ stem _ Hdot).
    change (Str.replace_from ".jpg" sfx 0 ".jpeg") with ".jpeg".
    rewrite (replace_from_skips _ _ stem _ Hdot).
    change (Str.replace_from ".jpeg" sfx 0 ".jpeg") with (sfx +:+ EmptyString).
    rewrite append_nil_r.
    now rewrite (replace_from_skips _ _ stem _ Hdot).
  - rewrite (replace_from_skips _ _ stem _ Hdot).
    change (Str.replace_from ".jpg" sfx 0 ".png") with ".png".
    rewrite (replace_from_skips _ _ stem _ Hdot).
    change (Str.replace_from ".jpeg" sfx 0 ".png") with ".png".
    rewrite (replace_from_skips _ _ stem _ Hdot).
    change (Str.replace_from ".png" sfx 0 ".png") with (sfx +:+ EmptyString).
    now rewrite append_nil_r.
Qed.

Lemma detect_gender_labels (d : result string) :
  detect_gender d = "male" \/ detect_gender d = "female" \/ detect_gender d = "neutral".
Proof.
  unfold detect_gender. destruct d as [g|e]; [|auto].
  destruct (starts_with_m g); auto.
Qed.

Lemma avatar_obj_path_of_jpg (d : result string) (stem : string) :
  Str.mem "." stem = false ->
  avatar_obj_path (detect_gender d) (stem +:+ ".jpg")
  = stem +:+ "_" +:+ detect_gender d +:+ "_avatar.obj".
Proof.
  intros Hdot. unfold avatar_obj_path.
  rewrite (proj1 (swap_extension_rescans _ stem Hdot)).
  destruct (detect_gender_labels d) as [-> | [-> | ->]]; reflexivity.
Qed.

Section RealTasks.
Context `{E : Externals}.

(** X18. Neither task writes a file when it stops early: the 3D task
    raises [KeyError] before anything else when [model_paths] has no
    entry [neutral], and answers "no person" when the pose estimator
    found no landmarks; the 2D task answers "no person" then, too. *)
Theorem tasks_stop_before_writing
    (s : shot R) (image_path : string) (model_paths : gmap string string) :
  pose_landmarks s = None \/ model_paths !! "neutral" = None ->
  snd (process_user_image_3d_auto_gender s image_path model_paths) = []
  /\ fst (process_user_image_3d_auto_gender s image_path model_paths)
     = match model_paths !! "neutral" with
       | None => RaisedKeyError "neutral"
       | Some _ => Returned NoPerson
       end
  /\ (pose_landmarks s = None ->
      process_user_image s image_path = (Returned NoPerson, [])).
Proof.
  intros Hstop. unfold process_user_image_3d_auto_gender, process_user_image.
  destruct (model_paths !! "neutral") as [neutral_path|] eqn:Hneutral.
  - destruct Hstop as [Hpose|?]; [|discriminate].
    rewrite Hpose. cbn. auto.
  - cbn. repeat split. intros ->. reflexivity.
Qed.

(** X19. On a photograph [<stem>.jpg] (no dot in the stem) with a pose
    of 33 landmarks, the 3D task returns the measurements, a gender among
    male, female and neutral, and the path [<stem>_<gender>_avatar.obj];
    the previews it writes carry doubled suffixes
    ([<stem>_bodymask_bodymask.png], [<stem>_facecrop_facecrop.png]),
    and the 2D task's picture is [<stem>_avatar_avatar.png]. *)
Theorem three_d_task_on_a_jpg
    (s : shot R) (stem : string) (model_paths : gmap string string)
    (lms : list (Measure.landmark R)) (neutral_path : string)
    (model : list vertex * list (nat * nat * nat)) :
  Str.mem "." stem = false ->
  pose_landmarks s = Some lms ->
  length lms = 33%nat ->
  model_paths !! "neutral" = Some neutral_path ->
  body_model s (default neutral_path (model_paths !! detect_gender (deepface s)))
             (detect_gender (deepface s)) = Ok model ->
  mesh_export_ok s = true ->
  let gender := detect_gender (deepface s) in
  let obj := stem +:+ "_" +:+ gender +:+ "_avatar.obj" in
  exists m,
    Measure.estimate_body_measurements lms (image_size s) = Ok m
    /\ (gender = "male" \/ gender = "female" \/ gender = "neutral")
    /\ process_user_image_3d_auto_gender s (stem +:+ ".jpg") model_paths
       = (Returned (Avatar3d obj gender m),
          [stem +:+ "_bodymask_bodymask.png"; stem +:+ "_measurements.txt"; obj]
          ++ match crop_face (face s) with
             | Some _ => [stem +:+ "_facecrop_facecrop.png"]
             | None => []
             end)
    /\ process_user_image s (stem +:+ ".jpg")
       = (Returned (Avatar2d (stem +:+ "_avatar_avatar.png")),
          [stem +:+ "_bodymask_bodymask.png"; stem +:+ "_measurements.txt";
           stem +:+ "_avatar_avatar.png"]).
Proof.
  intros Hdot Hpose Hlen Hneutral Hmodel Hexport gender obj.
  eexists. split; [now apply estimate_real|].
  split; [apply detect_gender_labels|].
  unfold process_user_image_3d_auto_gender, process_user_image, extract_body_shape.
  rewrite Hneutral, Hpose, (estimate_real lms (image_size s) Hlen).
  unfold fit_smplx_to_landmarks. rewrite Hmodel. cbn [bind]. rewrite Hexport.
  rewrite (avatar_obj_path_of_jpg _ stem Hdot).
  unfold bodymask_path, measurements_path, facecrop_path, avatar_png_path.
  rewrite !(proj1 (swap_extension_rescans _ stem Hdot)).
  split.
  - destruct (crop_face (face s)); reflexivity.
  - reflexivity.
Qed.

End RealTasks.

End WorkerExtras.

Lemma tasks_stop_before_writing_witness :
  let s : WorkerRun.shot R :=
    WorkerRun.Shot (Ok "Man") None (640, 480) faceless_scene
      (fun _ _ => Ok (triangle, [(0, 1, 2)%nat])) true in
  snd (WorkerRun.process_user_image_3d_auto_gender (E := AvatarUtils.reference_externals)
         s "photo.jpg" ∅) = []
  /\ fst (WorkerRun.process_user_image_3d_auto_gender (E := AvatarUtils.reference_externals)
            s "photo.jpg" ∅)
     = match (∅ : gmap string string) !! "neutral" with
       | None => WorkerRun.RaisedKeyError "neutral"
       | Some _ => WorkerRun.Returned WorkerRun.NoPerson
       end
  /\ (WorkerRun.pose_landmarks s = None ->
      WorkerRun.process_user_image s "photo.jpg"
      = (WorkerRun.Returned WorkerRun.NoPerson, [])).
Proof.
  apply (tasks_stop_before_writing (E := AvatarUtils.reference_externals)
           (WorkerRun.Shot (Ok "Man") None (640, 480) faceless_scene
              (fun _ _ => Ok (triangle, [(0, 1, 2)%nat])) true)
           "photo.jpg" ∅).
  left. reflexivity.
Defined.

Lemma three_d_task_on_a_jpg_witness :
  let gender := WorkerRun.detect_gender (WorkerRun.deepface session) in
  let obj := "photo" +:+ "_" +:+ gender +:+ "_avatar.obj" in
  exists m,
    Measure.estimate_body_measurements
      (Measure.scenario_pose Measure.ratio (Measure.Landmark 0%R 0%R))
      (WorkerRun.image_size session) = Ok m
    /\ (gender = "male" \/ gender = "female" \/ gender = "neutral")
    /\ WorkerRun.process_user_image_3d_auto_gender (E := AvatarUtils.reference_externals)
         session ("photo" +:+ ".jpg") {[ "neutral" := "neutral.npz" ]}
       = (WorkerRun.Returned (WorkerRun.Avatar3d obj gender m),
          ["photo" +:+ "_bodymask_bodymask.png"; "photo" +:+ "_measurements.txt"; obj]
          ++ match ImageUtils.crop_face (WorkerRun.face session) with
             | Some _ => ["photo" +:+ "_facecrop_facecrop.png"]
             | None => []
             end)
    /\ WorkerRun.process_user_image session ("photo" +:+ ".jpg")
       = (WorkerRun.Returned (WorkerRun.Avatar2d ("photo" +:+ "_avatar_avatar.png")),
          ["photo" +:+ "_bodymask_bodymask.png"; "photo" +:+ "_measurements.txt";
           "photo" +:+ "_avatar_avatar.png"]).
Proof.
  apply (three_d_task_on_a_jpg (E := AvatarUtils.reference_externals)
           session "photo" {[ "neutral" := "neutral.npz" ]}
           (Measure.scenario_pose Measure.ratio (Measure.Landmark 0%R 0%R))
           "neutral.npz" (triangle, [(0, 1, 2)%nat]));
    reflexivity.
Defined.

(** ** Face detection, crop and landmarks *)

Section FaceExtras.

Import ImageUtils.

(** [int()] never reverses the order of two numbers. *)
Lemma py_int_monotone (a b : Q) : (a <= b)%Q -> py_int a <= py_int b.
Proof.
  unfold Qle, py_int. destruct a as [n d], b as [n' d']. cbn [Qnum Qden]. intros Hle.
  rewrite <- (Z.quot_mul_cancel_r n (Zpos d) (Zpos d')) by lia.
  rewrite <- (Z.quot_mul_cancel_r n' (Zpos d') (Zpos d)) by lia.
  rewrite (Z.mul_comm (Zpos d') (Zpos d)).
  apply Z.quot_le_mono; lia.
Qed.

(** A box of non-negative width and height on a picture has its corners
    in order. *)
Lemma box_corners_ordered (size : Z * Z) (box : rel_box) :
  0 <= fst size -> 0 <= snd size ->
  (0 <= width box)%Q -> (0 <= height box)%Q ->
  let '(x1, y1, x2, y2) := box_corners size box in x1 <= x2 /\ y1 <= y2.
Proof.
  intros Hw Hh Hbw Hbh. unfold box_corners.
  assert (forall (o e : Q) (k : Z), 0 <= k -> (0 <= e)%Q ->
            (o * inject_Z k <= (o + e) * inject_Z k)%Q) as Hscale.
  { intros o e k Hk He. apply Qmult_le_compat_r.
    - rewrite <- (Qplus_0_r o) at 1. now apply Qplus_le_r.
    - unfold Qle. cbn. lia. }
  split; apply py_int_monotone, Hscale; assumption.
Qed.

(** X20. The face crop is the first box [detect_faces] reports: when the
    corners of that box are in order (as they are for a detection of
    non-negative width and height) the crop has the box's width and height
    and shows the picture's pixels from the box's corner on, and when they
    are reversed PIL refuses the box and there is no crop; without a face
    mesh the landmarks are the four corners of the same box, clockwise
    from the top left.  When [detect_faces] reports no box or raises,
    there is no crop. *)
Theorem face_crop_is_the_first_detected_box (s : scene) :
  match detect_faces s with
  | Ok ((x1, y1, x2, y2) :: _) =>
      exists image,
        pil_open s = Ok image
        /\ (face_mesh s = Ok [] ->
            extract_face_landmarks s = Some [(x1, y1); (x2, y1); (x2, y2); (x1, y2)])
        /\ (x2 < x1 \/ y2 < y1 -> crop_face s = None)
        /\ (x1 <= x2 -> y1 <= y2 ->
            exists face_img,
              crop_face s = Some face_img
              /\ im_width face_img = x2 - x1
              /\ im_height face_img = y2 - y1
              /\ forall x y, inside image (x + x1) (y + y1) = true ->
                   pixel face_img x y = pixel image (x + x1) (y + y1))
        /\ (forall box boxes,
              face_detection s = Ok (box :: boxes) ->
              0 <= im_width image -> 0 <= im_height image ->
              (0 <= width box)%Q -> (0 <= height box)%Q ->
              x1 <= x2 /\ y1 <= y2)
  | Ok [] =>
      crop_face s = None
      /\ (face_mesh s = Ok [] -> extract_face_landmarks s = None)
  | Raise _ => crop_face s = None
  end.
Proof.
  unfold detect_faces, crop_face, extract_face_landmarks.
  destruct (pil_open s) as [image|e]; cbn [bind]; [|reflexivity].
  destruct (face_detection s) as [[|box boxes]|e]; cbn [bind map]; [| |reflexivity].
  - split; [reflexivity|]. now intros ->.
  - cbn zeta. cbn [fst snd].
    pose proof (box_corners_ordered (im_width image, im_height image) box) as Hord.
    destruct (box_corners _ box) as [[[x1 y1] x2] y2].
    exists image. split; [reflexivity|]. split; [now intros ->|].
    unfold Pil.crop. split; [|split].
    + intros Hrev.
      destruct ((x2 <? x1) || (y2 <? y1)) eqn:Hb; [reflexivity|].
      apply orb_false_elim in Hb as [Hx Hy].
      apply Z.ltb_ge in Hx, Hy. lia.
    + intros Hx Hy.
      destruct ((x2 <? x1) || (y2 <? y1)) eqn:Hb.
      * apply orb_true_iff in Hb as [Hb|Hb]; apply Z.ltb_lt in Hb; lia.
      * eexists. split; [reflexivity|]. cbn [im_width im_height pixel].
        repeat split. intros x y ->. reflexivity.
    + intros box' boxes' [= <- <-] Hw Hh Hbw Hbh. now apply Hord.
Qed.

(** X21. The face-landmark extraction of [workerrun.py] never falls back
    to the detected box: whenever it returns landmarks, the extraction of
    [image_utils.py] returns the same ones, and whenever no face mesh is
    found it returns nothing, whatever the face detector saw. *)
Theorem worker_landmarks_come_from_the_mesh_only (s : scene) :
  (forall coords,
     WorkerRun.extract_face_landmarks s = Some coords ->
     extract_face_landmarks s = Some coords
     /\ exists face faces, face_mesh s = Ok (face :: faces)
                           /\ length coords = length face)
  /\ (face_mesh s = Ok [] -> WorkerRun.extract_face_landmarks s = None).
Proof.
  unfold WorkerRun.extract_face_landmarks, extract_face_landmarks.
  destruct (pil_open s) as [image|e]; [|split; [discriminate|reflexivity]].
  destruct (face_mesh s) as [[|face faces]|e]; split; try discriminate; try reflexivity.
  intros coords [= <-]. split; [reflexivity|].
  exists face, faces. split; [reflexivity|]. now rewrite length_map.
Qed.

End FaceExtras.
